(** * Kidney MLOps glue code: orchestration pipeline and drift monitoring

    A shallow embedding of [src/pipeline.py] and
    [src/monitoring/drift_detection.py].  Both files are sequencing code
    around third-party libraries (Prefect, pandas, Evidently) and around
    modules of the project that live elsewhere ([src.config],
    [src.data.preprocess], [src.models.train], [src.models.evaluate]).
    The collaborators are parameters of the development; what is embedded
    and verified is the control flow, the effects and the data the two
    files build themselves. *)

From Stdlib Require Import SpecFloat DecimalString.
From stdpp Require Import gmap strings list fin_maps sorting.

Open Scope string_scope.
Open Scope list_scope.

#[local] Set Warnings "-register-all".

(** ** Exceptions and outcomes *)

(** A Python exception, by the name of its class and its message.  [Exn]
    is an instance of a class that derives from [Exception]; [BaseExn] one
    of a class that derives from [BaseException] only, such as
    [SystemExit] and [KeyboardInterrupt]. *)
Inductive exn :=
| Exn (exn_class exn_msg : string)
| BaseExn (exn_class exn_msg : string).

(** [isinstance(e, Exception)] *)
Definition is_Exception (e : exn) : bool :=
  match e with Exn _ _ => true | BaseExn _ _ => false end.

(** The outcome of a Python call: a value, or a raised exception. *)
Inductive outcome (A : Type) : Type :=
| Ok (a : A)
| Raise (e : exn).
Arguments Ok {A} a.
Arguments Raise {A} e.

Definition is_ok {A} (o : outcome A) : bool :=
  match o with Ok _ => true | Raise _ => false end.

(** Decimal rendering of a natural number, as an f-string prints an int. *)
Definition show_nat (n : nat) : string := NilEmpty.string_of_uint (Nat.to_uint n).

(** ** The orchestration pipeline, [src/pipeline.py] *)

Module Pipeline.

(** The three delegates the tasks wrap. *)
Inductive step := Preprocess | Train | Evaluate.

#[global] Instance step_eq_dec : EqDecision step.
Proof. solve_decision. Defined.

(** Position of a step in the pipeline. *)
Definition step_rank (d : step) : nat :=
  match d with Preprocess => 0 | Train => 1 | Evaluate => 2 end.

(** What a run leaves behind, in order: log lines written through the run
    logger, invocations of a delegate, and the waits of the task runner
    between two attempts. *)
Inductive event :=
| Log (msg : string)
| Call (d : step)
| RetryWait (seconds : nat).

(** Keyword arguments of the [@task] decorator. *)
Record task_options := TaskOptions {
  name : string;
  retries : nat;
  retry_delay_seconds : nat
}.

(** The status mapping of the flow: a Python dict with string keys. *)
Definition status := list (string * bool).

Fixpoint dict_set {V} (k : string) (v : V) (d : list (string * V)) : list (string * V) :=
  match d with
  | [] => [(k, v)]
  | (k', v') :: rest =>
      if String.eqb k k' then (k, v) :: rest else (k', v') :: dict_set k v rest
  end.

Fixpoint dict_get {V} (k : string) (d : list (string * V)) : option V :=
  match d with
  | [] => None
  | (k', v') :: rest => if String.eqb k k' then Some v' else dict_get k rest
  end.

(** [src.data.preprocess.preprocess], [src.models.train.train] and
    [src.models.evaluate.evaluate] are modules of the project outside these
    two files.  [Ext] is everything they read and write (files on disk, the
    tracking server, ...); each call transforms it and returns or raises.
    [Array] is what the preprocessing returns four of, with its
    [shape[0]]. *)
Class Delegates := {
  Ext : Type;
  Array : Type;
  shape0 : Array -> nat;
  preprocess : Ext -> outcome (Array * Array * Array * Array) * Ext;
  train : Ext -> outcome unit * Ext;
  evaluate : Ext -> outcome unit * Ext
}.

Section Flow.

Context `{Delegates}.

Record state := State { ext : Ext; trace : list event }.

(** Computations of the pipeline: state passing with exceptions; the state
    reached when an exception is raised is kept. *)
Definition M (A : Type) : Type := state -> outcome A * state.

Definition ret {A} (a : A) : M A := fun s => (Ok a, s).

Definition bind {A B} (m : M A) (k : A -> M B) : M B :=
  fun s => match m s with
           | (Ok a, s') => k a s'
           | (Raise e, s') => (Raise e, s')
           end.

#[local] Notation "'let*' x := m 'in' k" := (bind m (fun x => k))
  (at level 10, x name, m at level 100, k at level 200).
#[local] Notation "'run' m 'in' k" := (bind m (fun _ => k))
  (at level 10, m at level 100, k at level 200).

Definition emit (ev : event) : M unit :=
  fun s => (Ok tt, State (ext s) (trace s ++ [ev])).

(** [logger.info(msg)] on the logger of [get_run_logger()]. *)
Definition logger_info (msg : string) : M unit := emit (Log msg).

(** A call of a delegate: recorded, then run on the external state. *)
Definition call {A} (d : step) (f : Ext -> outcome A * Ext) : M A :=
  fun s => let '(r, e') := f (ext s) in
           (r, State e' (trace s ++ [Call d])).

(** The task runner of the orchestration library: the decorated function
    is attempted once and, while it raises an [Exception] and retries are
    left, attempted again after the configured delay; the exception of the
    last attempt is re-raised to the caller.  The runner retries on
    instances of [Exception] only: any other exception (a [SystemExit], a
    [KeyboardInterrupt]) ends the run at once. *)
Fixpoint attempt {A} (delay : nat) (retries_left : nat) (fn : M A) : M A :=
  fun s => match fn s with
           | (Ok a, s') => (Ok a, s')
           | (Raise e, s') =>
               if is_Exception e then
                 match retries_left with
                 | O => (Raise e, s')
                 | S k => (run emit (RetryWait delay) in attempt delay k fn) s'
                 end
               else (Raise e, s')
           end.

Definition task {A} (opts : task_options) (fn : M A) : M A :=
  attempt (retry_delay_seconds opts) (retries opts) fn.

(** An attempt with this outcome is the last one, whatever retries are
    left: it returned, or it raised something that is not an
    [Exception]. *)
Definition stops {A} (r : outcome A) : bool :=
  match r with
  | Ok _ => true
  | Raise e => negb (is_Exception e)
  end.

(** [@task(name="preprocess_data", retries=2, retry_delay_seconds=10)] *)
Definition preprocess_options : task_options := TaskOptions "preprocess_data" 2 10.
(** [@task(name="train_model", retries=1)] *)
Definition train_options : task_options := TaskOptions "train_model" 1 0.
(** [@task(name="evaluate_model")] *)
Definition evaluate_options : task_options := TaskOptions "evaluate_model" 0 0.

(** The three decorated functions, then the tasks the decorator makes of
    them. *)
Definition preprocess_body : M (Array * Array * Array * Array) :=
  run logger_info "Starting data preprocessing..." in
  let* splits := call Preprocess preprocess in
  let '(X_train, X_test, y_train, y_test) := splits in
  run logger_info ("Preprocessing complete. Train samples: " +:+ show_nat (shape0 X_train)
                   +:+ ", Test samples: " +:+ show_nat (shape0 X_test)) in
  ret (X_train, X_test, y_train, y_test).

Definition train_body : M unit :=
  run logger_info "Starting model training with MLflow tracking..." in
  run call Train train in
  logger_info "Model training complete.".

Definition evaluate_body : M unit :=
  run logger_info "Starting model evaluation..." in
  run call Evaluate evaluate in
  logger_info "Model evaluation complete. Metrics saved to reports/metrics.json".

Definition preprocess_task : M (Array * Array * Array * Array) :=
  task preprocess_options preprocess_body.

Definition train_task : M unit := task train_options train_body.

Definition evaluate_task : M unit := task evaluate_options evaluate_body.

Definition kidney_ml_pipeline
    (run_preprocessing run_training run_evaluation : bool) : M status :=
  run logger_info "Starting Kidney MLOps Pipeline..." in
  let results := [("preprocessing", false); ("training", false); ("evaluation", false)] in
  let* results := (if run_preprocessing
                   then run preprocess_task in ret (dict_set "preprocessing" true results)
                   else ret results) in
  let* results := (if run_training
                   then run train_task in ret (dict_set "training" true results)
                   else ret results) in
  let* results := (if run_evaluation
                   then run evaluate_task in ret (dict_set "evaluation" true results)
                   else ret results) in
  run logger_info "Pipeline execution complete!" in
  ret results.

Definition training_pipeline : M unit :=
  run logger_info "Starting training-only pipeline..." in
  run train_task in
  run evaluate_task in
  logger_info "Training pipeline complete!".

(** The delegates invoked during a run, in order of invocation. *)
Fixpoint calls (t : list event) : list step :=
  match t with
  | [] => []
  | Call d :: t' => d :: calls t'
  | _ :: t' => calls t'
  end.

(** How many times [d] occurs among the calls [cs]. *)
Definition call_count_in (d : step) (cs : list step) : nat :=
  length (filter (fun d' => d' = d) cs).

(** How many times delegate [d] was invoked. *)
Definition call_count (d : step) (t : list event) : nat :=
  call_count_in d (calls t).

(** The waits of the task runner during a run, in order. *)
Fixpoint waits (t : list event) : list nat :=
  match t with
  | [] => []
  | RetryWait n :: t' => n :: waits t'
  | _ :: t' => waits t'
  end.

(** A function that, on every run, invokes delegate [d] once and does
    not wait. *)
Definition one_call {A} (d : step) (fn : M A) : Prop :=
  forall s, exists evs,
    trace (fn s).2 = trace s ++ evs /\ calls evs = [d] /\ waits evs = [].

(** Every run of [m] appends events to the trace, and its outcome and
    the delegate calls among these events satisfy [P]. *)
Definition makes {A} (m : M A) (P : outcome A -> list step -> Prop) : Prop :=
  forall s, exists evs, trace (m s).2 = trace s ++ evs /\ P (m s).1 (calls evs).

(** What [bind m k] makes, from what [m] and [k] make. *)
Definition then_makes {A B} (P : outcome A -> list step -> Prop)
    (Q : A -> outcome B -> list step -> Prop) : outcome B -> list step -> Prop :=
  fun r cs =>
    (exists x, r = Raise x /\ P (Raise x) cs) \/
    (exists a c1 c2, P (Ok a) c1 /\ Q a r c2 /\ cs = c1 ++ c2).

(** Between [lo] and [hi] calls of [d], and nothing else. *)
Definition calls_of (d : step) (lo hi : nat) (cs : list step) : Prop :=
  exists k, cs = replicate k d /\ lo <= k <= hi.

(** The status mapping after the steps the toggles enable have run. *)
Definition status_of (run_preprocessing run_training run_evaluation : bool) : status :=
  [("preprocessing", run_preprocessing); ("training", run_training);
   ("evaluation", run_evaluation)].

(** The calls of the full flow and the status it returns. *)
Definition flow_post (p t e : bool) (r : outcome status) (cs : list step) : Prop :=
  exists cp ct ce,
    cs = cp ++ ct ++ ce /\
    calls_of Preprocess 0 (if p then 3 else 0) cp /\
    calls_of Train 0 (if t then 2 else 0) ct /\
    calls_of Evaluate 0 (if e then 1 else 0) ce /\
    (forall st, r = Ok st ->
       st = status_of p t e /\
       calls_of Preprocess (if p then 1 else 0) 3 cp /\
       calls_of Train (if t then 1 else 0) 2 ct /\
       calls_of Evaluate (if e then 1 else 0) 1 ce).

(** The events a run adds to the trace it started from. *)
Definition added (before after : state) : list event :=
  drop (length (trace before)) (trace after).

(** The invocations respect the order of the pipeline: no delegate is
    invoked after one of a later step. *)
Definition in_pipeline_order (l : list step) : Prop :=
  StronglySorted (fun a b => step_rank a <= step_rank b) l.

(** The steps the toggles enable, in pipeline order. *)
Definition enabled (run_preprocessing run_training run_evaluation : bool) : list step :=
  (if run_preprocessing then [Preprocess] else []) ++
  (if run_training then [Train] else []) ++
  (if run_evaluation then [Evaluate] else []).

(** The lines written through the run logger during a run, in order. *)
Fixpoint logs (t : list event) : list string :=
  match t with
  | [] => []
  | Log msg :: t' => msg :: logs t'
  | _ :: t' => logs t'
  end.

(** The options the task of each step is declared with. *)
Definition options_of (d : step) : task_options :=
  match d with
  | Preprocess => preprocess_options
  | Train => train_options
  | Evaluate => evaluate_options
  end.

End Flow.

(** Delegates for the examples: the external state counts the calls of
    [train], whose first [k] calls raise; the other two always succeed. *)
Definition flaky_train (k : nat) : Delegates := {|
  Ext := nat;
  Array := nat;
  shape0 := fun a => a;
  preprocess := fun n => (Ok (8, 2, 8, 2), n);
  train := fun n =>
    (if Nat.ltb n k then Raise (Exn "RuntimeError" "training failed") else Ok tt, S n);
  evaluate := fun n => (Ok tt, n)
|}.

End Pipeline.

(** ** Drift monitoring, [src/monitoring/drift_detection.py] *)

Module Monitoring.

(** *** Python values *)

(** The values that travel through the summaries: what a report's
    [dict()] is made of and what [json.dump] accepts.  A float is a
    binary64, [SpecFloat] at precision 53. *)
Inductive pyval :=
| PNone
| PBool (b : bool)
| PInt (z : Z)
| PFloat (f : spec_float)
| PStr (s : string)
| PList (l : list pyval)
| PDict (d : list (string * pyval)).

(** A dict with string keys, in insertion order. *)
Definition dict := list (string * pyval).

Definition AttributeError (msg : string) : exn := Exn "AttributeError" msg.
Definition TypeError (msg : string) : exn := Exn "TypeError" msg.
Definition FileExistsError (msg : string) : exn := Exn "FileExistsError" msg.
Definition FileNotFoundError (msg : string) : exn := Exn "FileNotFoundError" msg.
Definition IsADirectoryError (msg : string) : exn := Exn "IsADirectoryError" msg.
Definition NotADirectoryError (msg : string) : exn := Exn "NotADirectoryError" msg.

(** [d[k] = v] *)
Fixpoint setitem (k : string) (v : pyval) (d : dict) : dict :=
  match d with
  | [] => [(k, v)]
  | (k', v') :: rest =>
      if String.eqb k k' then (k, v) :: rest else (k', v') :: setitem k v rest
  end.

(** Lookup of a key in a dict. *)
Fixpoint lookup_key (k : string) (d : dict) : option pyval :=
  match d with
  | [] => None
  | (k', v') :: rest => if String.eqb k k' then Some v' else lookup_key k rest
  end.

(** [d.get(k, default)] on a dict. *)
Definition dict_get (k : string) (default : pyval) (d : dict) : pyval :=
  match lookup_key k d with Some v => v | None => default end.

(** [x.get(k, default)] on any object: only a dict has the method. *)
Definition py_get (x : pyval) (k : string) (default : pyval) : outcome pyval :=
  match x with
  | PDict d => Ok (dict_get k default d)
  | _ => Raise (AttributeError "object has no attribute 'get'")
  end.

Definition chars (s : string) : list pyval :=
  map (fun c => PStr (String c EmptyString)) (String.list_ascii_of_string s).

(** The items a [for] loop over [x] visits. *)
Definition py_iter (x : pyval) : outcome (list pyval) :=
  match x with
  | PList l => Ok l
  | PDict d => Ok (map (fun kv => PStr (fst kv)) d)
  | PStr s => Ok (chars s)
  | _ => Raise (TypeError "object is not iterable")
  end.

(** [needle in hay] on strings. *)
Fixpoint contains (needle hay : string) : bool :=
  if String.prefix needle hay then true
  else match hay with
       | EmptyString => false
       | String _ rest => contains needle rest
       end.

(** The float literals of the file. *)
Definition float_0_0 : spec_float := S754_zero false.
(** 1.05 as a binary64: 0x3FF0CCCCCCCCCCCD. *)
Definition float_1_05 : spec_float := S754_finite false 4728779608739021 (-52).
(** 0.3 as a binary64: 0x3FD3333333333333. *)
Definition float_0_3 : spec_float := S754_finite false 5404319552844595 (-54).

(** [float(z)] *)
Definition float_of_Z (z : Z) : spec_float :=
  match z with
  | Z0 => S754_zero false
  | Zpos p => binary_normalize 53 1024 (Zpos p) 0 false
  | Zneg p => binary_normalize 53 1024 (Zneg p) 0 true
  end.

(** [round(f)]: the nearest integer, a half going to the even one. *)
Definition py_round (f : spec_float) : Z :=
  match f with
  | S754_finite s m e =>
      let v := match e with
               | Zneg k =>
                   let d := Z.pow_pos 2 k in
                   let q := (Zpos m / d)%Z in
                   let r := (Zpos m mod d)%Z in
                   if (2 * r <? d)%Z then q
                   else if (d <? 2 * r)%Z then (q + 1)%Z
                   else if Z.even q then q else (q + 1)%Z
               | _ => (Zpos m * 2 ^ e)%Z
               end in
      if s then (- v)%Z else v
  | _ => 0%Z
  end.

(** *** Paths and configuration *)

(** A path, as its components; [str(path)] joins them. *)
Definition path := list string.

Definition path_str (p : path) : string := String.concat "/" p.

(** [p / q] *)
Definition joinpath (p q : path) : path := (p ++ q).
Infix "//" := joinpath (at level 40, left associativity).

(** [p.parent] *)
Definition parent (p : path) : path := take (length p - 1) p.

(** The configuration mapping, as far as this file reads it:
    [cfg["data"]["raw_path"]], [cfg["data"]["target"]],
    [cfg["features"]["numeric"]], [cfg["features"]["categorical"]]. *)
Record Config := {
  raw_path : path;
  target : string;
  numeric : list string;
  categorical : list string
}.

(** [src.config]: the loader (the file is read again on every call) and
    the project root. *)
Class Project := {
  load_config : outcome Config;
  PROJECT_ROOT : path
}.

(** *** Data frames *)

(** A column: its cells. *)
Definition Series := list pyval.

Record DataFrame := {
  nrows : nat;
  columns : gmap string Series
}.

(** [len(df)] *)
Definition len (df : DataFrame) : Z := Z.of_nat (nrows df).

(** [df[col] = s] *)
Definition set_column (col : string) (s : Series) (df : DataFrame) : DataFrame :=
  {| nrows := nrows df; columns := <[col := s]> (columns df) |}.

(** The number of rows [df.sample(frac=frac)] draws from a frame of [n]
    rows: [round(frac * n)]. *)
Definition sample_size (frac : spec_float) (n : nat) : nat :=
  Z.to_nat (py_round (SFmul 53 1024 frac (float_of_Z (Z.of_nat n)))).

(** The data-frame library: [pd.read_csv(path)],
    [df.sample(frac=frac, random_state=random_state).copy()] and
    [series * x] for a float [x].  With an integer seed the sample is a
    function of the frame; which rows it draws is the library's business,
    how many is [sample_size]. *)
Class Pandas := {
  read_csv : path -> outcome DataFrame;
  sample : spec_float -> Z -> DataFrame -> DataFrame;
  series_mul : Series -> spec_float -> outcome Series;
  sample_nrows : forall frac random_state df,
    nrows (sample frac random_state df) = sample_size frac (nrows df)
}.

(** *** The reporting library *)

Record DataDefinition := {
  numerical_columns : list string;
  categorical_columns : list string
}.

(** [Dataset.from_pandas], [Report(metrics=[DataDriftPreset()]).run],
    [Report(metrics=[DataSummaryPreset()]).run] with no reference, and of
    the run they return the HTML rendering and [dict()]. *)
Class Evidently := {
  Dataset : Type;
  Snapshot : Type;
  from_pandas : DataFrame -> DataDefinition -> outcome Dataset;
  run_data_drift : Dataset -> Dataset -> outcome Snapshot;
  run_data_summary : Dataset -> outcome Snapshot;
  html_of : Snapshot -> string;
  dict_of : Snapshot -> pyval
}.

(** The builtins: [str(x)], and the text of
    [datetime.now().isoformat()] at each reading of the clock. *)
Class Builtins := {
  py_str : pyval -> string;
  isoformat_at : nat -> string
}.

(** *** The world *)

Inductive content :=
| Html (text : string)
| Json (v : pyval).

(** What a run does, in order: entries into the functions of this file,
    lines printed, and the operations on the file system. *)
Inductive event :=
| Enter (fn : string)
| Print (line : string)
| Mkdir (p : path)
| SaveHtml (p : path)
| JsonDump (p : path).

Record world := World {
  dirs : gset path;
  files : gmap path content;
  clock : nat;
  log : list event
}.

Definition M (A : Type) : Type := world -> outcome A * world.

Definition ret {A} (a : A) : M A := fun w => (Ok a, w).

Definition bind {A B} (m : M A) (k : A -> M B) : M B :=
  fun w => match m w with
           | (Ok a, w') => k a w'
           | (Raise e, w') => (Raise e, w')
           end.

(** A call that does not touch the world. *)
Definition lift {A} (o : outcome A) : M A := fun w => (o, w).

Definition bind_outcome {A B} (o : outcome A) (k : A -> outcome B) : outcome B :=
  match o with Ok a => k a | Raise e => Raise e end.

Notation "'let*' x := m 'in' k" := (bind m (fun x => k))
  (at level 10, x name, m at level 100, k at level 200).
Notation "'run' m 'in' k" := (bind m (fun _ => k))
  (at level 10, m at level 100, k at level 200).
Notation "'let?' x := m 'in' k" := (bind_outcome m (fun x => k))
  (at level 10, x name, m at level 100, k at level 200).

Definition emit (ev : event) : M unit :=
  fun w => (Ok tt, World (dirs w) (files w) (clock w) (log w ++ [ev])).

Definition print (line : string) : M unit := emit (Print line).

(** [datetime.now().isoformat()]: reads the clock, which moves on. *)
Definition now_isoformat `{Builtins} : M string :=
  fun w => (Ok (isoformat_at (clock w)), World (dirs w) (files w) (S (clock w)) (log w)).

(** The path itself and its ancestors, shortest first. *)
Definition prefixes (p : path) : list path :=
  map (fun n => take n p) (seq 1 (length p)).

Definition is_file (w : world) (p : path) : bool :=
  bool_decide (is_Some (files w !! p)).

(** The working directory [[]] always exists. *)
Definition is_dir (w : world) (p : path) : bool :=
  bool_decide (p = [] \/ p ∈ dirs w).

(** [p.mkdir(parents=True, exist_ok=True)]: creates the directory and
    the missing ancestors; an existing directory is accepted, a file in
    the way is not: a regular file at [p] is a [FileExistsError], one at an
    ancestor of [p] a [NotADirectoryError]. *)
Definition mkdir_parents_exist_ok (p : path) : M unit :=
  run emit (Mkdir p) in
  fun w =>
    if existsb (is_file w) (prefixes p)
    then (Raise (if is_file w p then FileExistsError (path_str p)
                 else NotADirectoryError (path_str p)), w)
    else (Ok tt, World (list_to_set (prefixes p) ∪ dirs w) (files w) (clock w) (log w)).

(** [open(p, "w")] followed by writing [c]: the empty path names no
    file; no ancestor of [p] may be a regular file; the directory of [p]
    has to exist, and [p] must not be a directory. *)
Definition write_file (p : path) (c : content) : M unit :=
  fun w =>
    if bool_decide (p = []) then (Raise (FileNotFoundError (path_str p)), w)
    else if existsb (is_file w) (prefixes (parent p))
    then (Raise (NotADirectoryError (path_str p)), w)
    else if negb (is_dir w (parent p)) then (Raise (FileNotFoundError (path_str p)), w)
    else if bool_decide (p ∈ dirs w) then (Raise (IsADirectoryError (path_str p)), w)
    else (Ok tt, World (dirs w) (<[p := c]> (files w)) (clock w) (log w)).

Section Reports.

Context `{Project} `{Pandas} `{Evidently} `{Builtins}.

(** [run_result.save_html(str(output_path))]: the run is rendered and
    written to the file of that name. *)
Definition save_html (run_result : Snapshot) (output_path : path) : M unit :=
  run emit (SaveHtml output_path) in
  write_file output_path (Html (html_of run_result)).

(** [with open(p, "w") as f: json.dump(v, f, indent=4)]; the file is
    recorded by the value a parse of it gives back. *)
Definition json_dump (v : pyval) (p : path) : M unit :=
  run emit (JsonDump p) in
  write_file p (Json v).

Definition load_reference_data : M DataFrame :=
  let* cfg := lift load_config in
  let raw_path := PROJECT_ROOT // raw_path cfg in
  let* df := lift (read_csv raw_path) in
  ret df.

Definition get_data_definition : M DataDefinition :=
  let* cfg := lift load_config in
  ret {| numerical_columns := numeric cfg;
         categorical_columns := categorical cfg ++ [target cfg] |}.

(** The loop over the numeric columns:
    [for col in numeric_cols: if col in current_data.columns:
       current_data[col] = current_data[col] * 1.05]. *)
Fixpoint shift_numeric (numeric_cols : list string) (current_data : DataFrame)
    : outcome DataFrame :=
  match numeric_cols with
  | [] => Ok current_data
  | col :: rest =>
      match columns current_data !! col with
      | Some s =>
          let? s' := series_mul s float_1_05 in
          shift_numeric rest (set_column col s' current_data)
      | None => shift_numeric rest current_data
      end
  end.

(** The loop over the metric results of a report. *)
Fixpoint extract_drift (metric_results : list pyval) (summary : dict) : outcome dict :=
  match metric_results with
  | [] => Ok summary
  | metric :: rest =>
      let? m := py_get metric "metric" (PStr "") in
      let metric_id := py_str m in
      let? result := py_get metric "result" (PDict []) in
      if (if contains "DatasetDrift" metric_id then true
          else contains "dataset_drift" (py_str result))
      then
        let? v1 := py_get result "dataset_drift" (PBool false) in
        let summary := setitem "dataset_drift" v1 summary in
        let? v2 := py_get result "drift_share" (PFloat float_0_0) in
        let summary := setitem "drift_share" v2 summary in
        let? v3 := py_get result "number_of_drifted_columns" (PInt 0) in
        let summary := setitem "number_of_drifted_columns" v3 summary in
        extract_drift rest summary
      else extract_drift rest summary
  end.

Definition generate_drift_report
    (current_data reference_data : option DataFrame) (output_path : option path)
    : M dict :=
  run emit (Enter "generate_drift_report") in
  let* cfg := lift load_config in
  let* reference_data :=
    match reference_data with
    | None => load_reference_data
    | Some df => ret df
    end in
  let* current_data :=
    match current_data with
    | None =>
        let current_data := sample float_0_3 42 reference_data in
        let numeric_cols := numeric cfg in
        lift (shift_numeric numeric_cols current_data)
    | Some df => ret df
    end in
  let* data_definition := get_data_definition in
  let* reference_dataset := lift (from_pandas reference_data data_definition) in
  let* current_dataset := lift (from_pandas current_data data_definition) in
  let* run_result := lift (run_data_drift reference_dataset current_dataset) in
  let* output_path :=
    match output_path with
    | None =>
        let reports_dir := PROJECT_ROOT // ["reports"] in
        run mkdir_parents_exist_ok reports_dir in
        ret (reports_dir // ["drift_report.html"])
    | Some p => ret p
    end in
  run save_html run_result output_path in
  run print ("Drift report saved to: " +:+ path_str output_path) in
  let report_dict := dict_of run_result in
  let* timestamp := now_isoformat in
  let summary := [("timestamp", PStr timestamp);
                  ("reference_samples", PInt (len reference_data));
                  ("current_samples", PInt (len current_data));
                  ("report_path", PStr (path_str output_path))] in
  let* metric_results := lift (py_get report_dict "metric_results" (PList [])) in
  let* metrics := lift (py_iter metric_results) in
  lift (extract_drift metrics summary).

Definition generate_data_summary_report
    (data : option DataFrame) (output_path : option path) : M dict :=
  run emit (Enter "generate_data_summary_report") in
  let* data :=
    match data with
    | None => load_reference_data
    | Some df => ret df
    end in
  let* data_definition := get_data_definition in
  let* current_dataset := lift (from_pandas data data_definition) in
  let* run_result := lift (run_data_summary current_dataset) in
  let* output_path :=
    match output_path with
    | None =>
        let reports_dir := PROJECT_ROOT // ["reports"] in
        run mkdir_parents_exist_ok reports_dir in
        ret (reports_dir // ["data_summary_report.html"])
    | Some p => ret p
    end in
  run save_html run_result output_path in
  run print ("Data summary report saved to: " +:+ path_str output_path) in
  let* timestamp := now_isoformat in
  ret [("timestamp", PStr timestamp);
       ("samples", PInt (len data));
       ("report_path", PStr (path_str output_path))].

(** ["=" * 60] *)
Definition banner : string := String.concat "" (replicate 60 "=").

Definition newline : string := String (Ascii.ascii_of_nat 10) EmptyString.



Definition generate_full_monitoring_report
    (current_data reference_data : option DataFrame) : M dict :=
  run emit (Enter "generate_full_monitoring_report") in
  run print banner in
  run print "Generating Comprehensive Monitoring Reports" in
  run print banner in
  let* reference_data :=
    match reference_data with
    | None => load_reference_data
    | Some df => ret df
    end in
  let* current_data :=
    match current_data with
    | None =>
        let current_data := sample float_0_3 42 reference_data in
        let* cfg := lift load_config in
        let numeric_cols := numeric cfg in
        lift (shift_numeric numeric_cols current_data)
    | Some df => ret df
    end in
  let* timestamp := now_isoformat in
  let results := [("timestamp", PStr timestamp)] in
  run print (newline +:+ "1. Generating Data Drift Report...") in
  let* drift_summary := generate_drift_report (Some current_data) (Some reference_data) None in
  let results := setitem "data_drift" (PDict drift_summary) results in
  run print (newline +:+ "2. Generating Data Summary Report...") in
  let* summary_result := generate_data_summary_report (Some current_data) None in
  let results := setitem "data_summary" (PDict summary_result) results in
  let reports_dir := PROJECT_ROOT // ["reports"] in
  let summary_path := reports_dir // ["monitoring_summary.json"] in
  run json_dump (PDict results) summary_path in
  run print (newline +:+ banner) in
  run print "Monitoring Complete!" in
  run print ("Summary saved to: " +:+ path_str summary_path) in
  run print banner in
  ret results.

(** The script of the module:
    [summary = generate_full_monitoring_report()], then the three lines
    [print(f"  - ...: {summary.get('data_drift', {}).get(key, 'N/A')}")]. *)
Definition main : M unit :=
  let* summary := generate_full_monitoring_report None None in
  run print (newline +:+ "Monitoring Summary:") in
  let* data_drift := lift (py_get (PDict summary) "data_drift" (PDict [])) in
  let* dataset_drift := lift (py_get data_drift "dataset_drift" (PStr "N/A")) in
  run print ("  - Dataset Drift Detected: " +:+ py_str dataset_drift) in
  let* data_drift := lift (py_get (PDict summary) "data_drift" (PDict [])) in
  let* drift_share := lift (py_get data_drift "drift_share" (PStr "N/A")) in
  run print ("  - Drift Share: " +:+ py_str drift_share) in
  let* data_drift := lift (py_get (PDict summary) "data_drift" (PDict [])) in
  let* drifted := lift (py_get data_drift "number_of_drifted_columns" (PStr "N/A")) in
  print ("  - Drifted Columns: " +:+ py_str drifted).

(** *** The parts of a run

    The functions above, cut at the points the statements below speak
    about: the data a run works on, the report it computes, and the summary
    it extracts. *)

Definition reports_dir : path := PROJECT_ROOT // ["reports"].
Definition drift_report_path : path := reports_dir // ["drift_report.html"].
Definition data_summary_report_path : path := reports_dir // ["data_summary_report.html"].
Definition summary_path : path := reports_dir // ["monitoring_summary.json"].

(** The reference data of a run: what the caller gave, else the raw
    data of the configuration. *)
Definition resolve_reference (reference_data : option DataFrame) : outcome DataFrame :=
  match reference_data with
  | Some df => Ok df
  | None => let? cfg := load_config in read_csv (PROJECT_ROOT // raw_path cfg)
  end.

(** The synthesized current data. *)
Definition simulate_current (reference_data : DataFrame) : outcome DataFrame :=
  let? cfg := load_config in
  shift_numeric (numeric cfg) (sample float_0_3 42 reference_data).

(** [s * 1.05], [n] times over. *)
Fixpoint scaled (n : nat) (s : Series) : outcome Series :=
  match n with
  | O => Ok s
  | S k => let? s' := series_mul s float_1_05 in scaled k s'
  end.

(** How often a name is listed. *)
Definition occurrences (col : string) (cols : list string) : nat :=
  count_occ String.string_dec cols col.

Definition resolve_current (reference_data : DataFrame) (current_data : option DataFrame)
    : outcome DataFrame :=
  match current_data with
  | Some df => Ok df
  | None => simulate_current reference_data
  end.

Definition data_definition_of (cfg : Config) : DataDefinition :=
  {| numerical_columns := numeric cfg;
     categorical_columns := categorical cfg ++ [target cfg] |}.

(** The drift report over a reference and a current frame. *)
Definition drift_run (reference_data current_data : DataFrame) : outcome Snapshot :=
  let? cfg := load_config in
  let? reference_dataset := from_pandas reference_data (data_definition_of cfg) in
  let? current_dataset := from_pandas current_data (data_definition_of cfg) in
  run_data_drift reference_dataset current_dataset.

(** The summary report over a frame. *)
Definition summary_run (data : DataFrame) : outcome Snapshot :=
  let? cfg := load_config in
  let? current_dataset := from_pandas data (data_definition_of cfg) in
  run_data_summary current_dataset.

(** The metric results the extraction loop visits. *)
Definition metric_results_of (run_result : Snapshot) : outcome (list pyval) :=
  let? metric_results := py_get (dict_of run_result) "metric_results" (PList []) in
  py_iter metric_results.

(** The four fields every drift summary starts from. *)
Definition base_summary (reference_data current_data : DataFrame)
    (output_path : path) (timestamp : string) : dict :=
  [("timestamp", PStr timestamp);
   ("reference_samples", PInt (len reference_data));
   ("current_samples", PInt (len current_data));
   ("report_path", PStr (path_str output_path))].

(** The result of a metric the loop takes the drift fields from, if the
    metric is one: its identifier contains [DatasetDrift] or its result,
    as a string, contains [dataset_drift]. *)
Definition drift_result_of (metric : pyval) : option pyval :=
  match metric with
  | PDict m =>
      let result := dict_get "result" (PDict []) m in
      if contains "DatasetDrift" (py_str (dict_get "metric" (PStr "") m))
         || contains "dataset_drift" (py_str result)
      then Some result else None
  | _ => None
  end.

(** The last such result of a list of metrics. *)
Definition last_drift_result (metrics : list pyval) : option pyval :=
  last (omap drift_result_of metrics).

(** The events a run added to the log. *)
Definition added (w w' : world) : list event := drop (length (log w)) (log w').

(** The world in which the orchestrator calls the drift step, and the one
    in which it calls the summary step after the drift step left [w]. *)
Definition drift_step_world (w : world) : world :=
  World (dirs w) (files w) (S (clock w))
        (log w ++ [Enter "generate_full_monitoring_report";
                   Print banner;
                   Print "Generating Comprehensive Monitoring Reports";
                   Print banner;
                   Print (newline +:+ "1. Generating Data Drift Report...")]).

Definition summary_step_world (w : world) : world :=
  World (dirs w) (files w) (clock w)
        (log w ++ [Print (newline +:+ "2. Generating Data Summary Report...")]).

(** The world the orchestrator leaves when the summary file is written. *)
Definition epilogue_world (w : world) : world :=
  World (dirs w) (files w) (clock w)
        (log w ++ [Print (newline +:+ banner);
                   Print "Monitoring Complete!";
                   Print ("Summary saved to: " +:+ path_str summary_path);
                   Print banner]).

(** The three fields the extraction loop may add. *)
Definition drift_keys : list string :=
  ["dataset_drift"; "drift_share"; "number_of_drifted_columns"].

(** The four fields every drift summary starts from. *)
Definition base_keys : list string :=
  ["timestamp"; "reference_samples"; "current_samples"; "report_path"].

(** A metric the extraction loop gets through: a mapping whose result,
    when the loop reads the drift fields from it, is a mapping too. *)
Definition metric_ok (metric : pyval) : bool :=
  match metric with
  | PDict _ =>
      match drift_result_of metric with
      | Some (PDict _) | None => true
      | Some _ => false
      end
  | _ => false
  end.

(** The data a call works on and the drift report over it. *)
Definition drift_inputs (current_data reference_data : option DataFrame)
    : outcome (DataFrame * DataFrame * Snapshot) :=
  let? r := resolve_reference reference_data in
  let? c := resolve_current r current_data in
  let? run_result := drift_run r c in
  Ok (r, c, run_result).

(** The data a summary call works on and the summary report over it. *)
Definition summary_inputs (data : option DataFrame) : outcome (DataFrame * Snapshot) :=
  let? d := resolve_reference data in
  let? run_result := summary_run d in
  Ok (d, run_result).

(** [open(p, "w")] succeeds: [p] is not the empty path, none of its
    ancestors is a regular file, its directory is there and [p] is not a
    directory. *)
Definition can_open (w : world) (p : path) : bool :=
  negb (bool_decide (p = []))
  && negb (existsb (is_file w) (prefixes (parent p)))
  && is_dir w (parent p)
  && negb (bool_decide (p ∈ dirs w)).

(** The page of a report can be written at the place the call names:
    with no output path, no file is in the way of [reports/] and the
    default file name, a name in [reports/], is not a directory; with an
    output path, a file of that path can be opened. *)
Definition can_write (w : world) (default_path : path) (output_path : option path) : bool :=
  match output_path with
  | None => negb (existsb (is_file w) (prefixes reports_dir))
            && negb (bool_decide (default_path ∈ dirs w))
  | Some p => can_open w p
  end.

(** The world a report function leaves when it has written its page. *)
Definition report_written (fn label : string) (default_path : path)
    (output_path : option path) (page : string) (w : world) : world :=
  let p := default default_path output_path in
  World (match output_path with
         | None => list_to_set (prefixes reports_dir) ∪ dirs w
         | Some _ => dirs w
         end)
        (<[p := Html page]> (files w))
        (S (clock w))
        (log w ++ [Enter fn] ++
           match output_path with None => [Mkdir reports_dir] | Some _ => [] end ++
           [SaveHtml p; Print (label +:+ path_str p)]).

Definition is_mkdir (ev : event) : bool :=
  match ev with Mkdir _ => true | _ => false end.

(** What a report function does after it was entered: directories,
    pages and printed lines. *)
Definition is_report_io (ev : event) : bool :=
  match ev with Mkdir _ | SaveHtml _ | Print _ => true | _ => false end.

Definition is_json_dump (ev : event) : bool :=
  match ev with JsonDump _ => true | _ => false end.

End Reports.

(** *** A small installation

    One concrete project, data-frame library and reporting library, to run
    the functions on. *)

Definition example_config (numeric_cols : list string) : Config :=
  {| raw_path := ["data"; "kidney_disease.csv"];
     target := "classification";
     numeric := numeric_cols;
     categorical := ["htn"] |}.

Definition example_project (numeric_cols : list string) : Project :=
  {| load_config := Ok (example_config numeric_cols);
     PROJECT_ROOT := ["project"] |}.

(** 100.0, 105.0 and 110.25 as binary64. *)
Definition float_100 : spec_float := S754_finite false 7036874417766400 (-46).
Definition float_105 : spec_float := S754_finite false 7388718138654720 (-46).
Definition float_110_25 : spec_float := S754_finite false 7758154045587456 (-46).

(** A cell times a float: numbers multiply as binary64, anything else is
    a type error. *)
Definition cell_mul (x : spec_float) (c : pyval) : outcome pyval :=
  match c with
  | PFloat f => Ok (PFloat (SFmul 53 1024 f x))
  | PInt z => Ok (PFloat (SFmul 53 1024 (float_of_Z z) x))
  | PBool b => Ok (PFloat (SFmul 53 1024 (float_of_Z (if b then 1 else 0)) x))
  | _ => Raise (TypeError "can't multiply sequence by non-int of type 'float'")
  end.

Fixpoint cells_mul (x : spec_float) (s : Series) : outcome Series :=
  match s with
  | [] => Ok []
  | c :: rest =>
      let? c' := cell_mul x c in
      let? rest' := cells_mul x rest in
      Ok (c' :: rest')
  end.

Definition example_frame : DataFrame :=
  {| nrows := 10;
     columns := {[ "age" := replicate 10 (PFloat float_100);
                   "htn" := replicate 10 (PStr "no");
                   "classification" := replicate 10 (PStr "ckd") ]} |}.

(** A sample of the size the library draws; the examples use frames
    whose rows are all alike, so which rows are drawn makes no
    difference. *)
Definition example_sample (frac : spec_float) (random_state : Z) (df : DataFrame)
    : DataFrame :=
  let k := sample_size frac (nrows df) in
  {| nrows := k; columns := take k <$> columns df |}.

Definition example_pandas : Pandas :=
  {| read_csv := fun _ => Ok example_frame;
     sample := example_sample;
     series_mul := fun s x => cells_mul x s;
     sample_nrows := fun _ _ _ => eq_refl |}.

(** A reporting library whose drift report is [drift] and whose reports
    render to a fixed page. *)
Definition example_evidently (drift : outcome pyval) : Evidently :=
  {| Dataset := DataFrame;
     Snapshot := pyval;
     from_pandas := fun df _ => Ok df;
     run_data_drift := fun _ _ => drift;
     run_data_summary := fun _ => Ok (PDict []);
     html_of := fun _ => "<html></html>";
     dict_of := fun d => d |}.

(** The same library when the summary report cannot be computed. *)
Definition example_evidently_without_summary (x : exn) : Evidently :=
  {| Dataset := DataFrame;
     Snapshot := pyval;
     from_pandas := fun df _ => Ok df;
     run_data_drift := fun _ _ => Ok (PDict []);
     run_data_summary := fun _ => Raise x;
     html_of := fun _ => "<html></html>";
     dict_of := fun d => d |}.

(** [str] of a string is the string; of a dict, here, its keys in braces
    (the values are left out); of anything else, a placeholder. *)
Definition example_str (v : pyval) : string :=
  match v with
  | PStr s => s
  | PDict d => "{" +:+ String.concat ", " (map (fun kv => "'" +:+ fst kv +:+ "'") d) +:+ "}"
  | _ => "<value>"
  end.

Definition example_builtins : Builtins :=
  {| py_str := example_str;
     isoformat_at := fun n => "2025-01-01T00:00:0" +:+ show_nat n |}.

(** A drift report with one metric of the preset. *)
Definition example_report : pyval :=
  PDict [("metric_results",
          PList [PDict [("metric", PStr "DatasetDriftMetric");
                        ("result", PDict [("dataset_drift", PBool true);
                                          ("number_of_drifted_columns", PInt 1)])]])].

(** A drift report none of whose metrics is a dataset-drift metric. *)
Definition example_report_of_counts : pyval :=
  PDict [("metric_results",
          PList [PDict [("metric", PStr "DriftedColumnsCount(drift_share=0.5)");
                        ("result", PDict [("count", PInt 1);
                                          ("share", PFloat float_0_0)])]])].

(** The 30% sample of [example_frame] with [age] shifted once. *)
Definition example_current : DataFrame :=
  {| nrows := 3;
     columns := {[ "age" := replicate 3 (PFloat float_105);
                   "htn" := replicate 3 (PStr "no");
                   "classification" := replicate 3 (PStr "ckd") ]} |}.

(** A world with nothing in it. *)
Definition empty_world : world := World ∅ ∅ 0 [].

(** The three functions on this installation, with [numeric_cols] the
    configured numeric features and [drift] what the drift report gives. *)
Definition example_drift_report (numeric_cols : list string) (drift : outcome pyval) :=
  @generate_drift_report (example_project numeric_cols) example_pandas
    (example_evidently drift) example_builtins.

Definition example_data_summary_report (numeric_cols : list string) (drift : outcome pyval) :=
  @generate_data_summary_report (example_project numeric_cols) example_pandas
    (example_evidently drift) example_builtins.

Definition example_full_monitoring_report (numeric_cols : list string)
    (drift : outcome pyval) :=
  @generate_full_monitoring_report (example_project numeric_cols) example_pandas
    (example_evidently drift) example_builtins.

End Monitoring.

(** * Properties of the pipeline *)

Module PipelineSpec.
Import Pipeline.

Section Facts.

Context `{Delegates}.

Lemma calls_app (t1 t2 : list event) : calls (t1 ++ t2) = calls t1 ++ calls t2.
Proof.
  induction t1 as [|[msg|d|n] t1 IH]; simpl; [done| | |]; by rewrite ?IH.
Qed.

Lemma waits_app (t1 t2 : list event) : waits (t1 ++ t2) = waits t1 ++ waits t2.
Proof.
  induction t1 as [|[msg|d|n] t1 IH]; simpl; [done| | |]; by rewrite ?IH.
Qed.

Lemma added_app (s s' : state) (evs : list event) :
  trace s' = trace s ++ evs -> added s s' = evs.
Proof. intros E. unfold added. rewrite E. by rewrite drop_app_length. Qed.

(** The task runner makes between one and [retries + 1] attempts, waits
    the configured delay between two of them, and raises an [Exception]
    only when the last permitted attempt raised it. *)
Lemma attempt_shape {A} (d : step) (fn : M A) (delay : nat) :
  one_call d fn ->
  forall n s, exists evs k,
    trace (attempt delay n fn s).2 = trace s ++ evs /\
    calls evs = replicate k d /\
    waits evs = replicate (k - 1) delay /\
    1 <= k <= S n /\
    (forall x, (attempt delay n fn s).1 = Raise x ->
               is_Exception x = true -> k = S n).
Proof.
  intros Hfn n. induction n as [|n IH]; intros s.
  - destruct (Hfn s) as (evs & Ht & Hc & Hw).
    exists evs, 1. simpl. destruct (fn s) as [[a|x] s1]; simpl in *;
      [done|destruct (is_Exception x); done].
  - destruct (Hfn s) as (evs & Ht & Hc & Hw).
    simpl. destruct (fn s) as [[a|x] s1]; simpl in *.
    + exists evs, 1. repeat split; try done; lia.
    + destruct (is_Exception x) eqn:Hx0.
      2: { exists evs, 1. simpl. repeat split; try done; try lia.
           intros x' [= <-] Hx'. congruence. }
      unfold bind, emit; simpl.
      set (s2 := State (ext s1) (trace s1 ++ [RetryWait delay])).
      destruct (IH s2) as (evs2 & k & Ht2 & Hc2 & Hw2 & Hk & Hr).
      exists (evs ++ RetryWait delay :: evs2), (S k).
      repeat split.
      * rewrite Ht2. subst s2; simpl. rewrite Ht. by rewrite <- !app_assoc.
      * rewrite calls_app; simpl. by rewrite Hc, Hc2.
      * rewrite waits_app; simpl. rewrite Hw, Hw2. simpl.
        replace (k - 0) with (S (k - 1)) by lia. done.
      * lia.
      * lia.
      * intros x' Hx Hx'. specialize (Hr x' Hx Hx'). lia.
Qed.

(** A first attempt that returns is the whole run of the task. *)
Lemma attempt_first_ok {A} (fn : M A) (delay n : nat) (s : state) :
  is_ok (fn s).1 = true -> attempt delay n fn s = fn s.
Proof. destruct n; simpl; destruct (fn s) as [[a|x] s1]; done. Qed.

Lemma preprocess_body_one_call : one_call Preprocess preprocess_body.
Proof.
  intros s. unfold preprocess_body, bind, logger_info, emit, call, ret; simpl.
  destruct (preprocess (ext s)) as [[[[[a b] c] d]|x] e1]; simpl;
    eexists; (split; [rewrite <- ?app_assoc; reflexivity|done]).
Qed.

Lemma train_body_one_call : one_call Train train_body.
Proof.
  intros s. unfold train_body, bind, logger_info, emit, call; simpl.
  destruct (train (ext s)) as [[[]|x] e1]; simpl;
    eexists; (split; [rewrite <- ?app_assoc; reflexivity|done]).
Qed.

Lemma evaluate_body_one_call : one_call Evaluate evaluate_body.
Proof.
  intros s. unfold evaluate_body, bind, logger_info, emit, call; simpl.
  destruct (evaluate (ext s)) as [[[]|x] e1]; simpl;
    eexists; (split; [rewrite <- ?app_assoc; reflexivity|done]).
Qed.

(** The run of the train task, attempt by attempt. *)
Lemma train_task_run (s : state) :
  train_task s =
    let t1 := trace s ++ [Log "Starting model training with MLflow tracking..."; Call Train] in
    match train (ext s) with
    | (Ok _, e1) => (Ok tt, State e1 (t1 ++ [Log "Model training complete."]))
    | (Raise x1, e1) =>
        if is_Exception x1 then
          let t2 := t1 ++ [RetryWait 0; Log "Starting model training with MLflow tracking...";
                           Call Train] in
          match train e1 with
          | (Ok _, e2) => (Ok tt, State e2 (t2 ++ [Log "Model training complete."]))
          | (Raise x, e2) => (Raise x, State e2 t2)
          end
        else (Raise x1, State e1 t1)
    end.
Proof.
  unfold train_task, task, train_options, train_body; simpl.
  unfold bind, logger_info, emit, call; simpl.
  destruct (train (ext s)) as [[[]|x] e1]; simpl.
  - by rewrite <- !app_assoc.
  - destruct (is_Exception x); simpl; [|by rewrite <- !app_assoc].
    destruct (train e1) as [[[]|x'] e2]; simpl;
      [|destruct (is_Exception x')]; by rewrite <- !app_assoc.
Qed.

(** The run of the preprocess task, attempt by attempt. *)
Lemma preprocess_task_run (s : state) :
  preprocess_task s =
    let start := [Log "Starting data preprocessing..."; Call Preprocess] in
    let again := RetryWait 10 :: start in
    let done_ (r : Array * Array * Array * Array) :=
      [Log ("Preprocessing complete. Train samples: " +:+ show_nat (shape0 r.1.1.1)
            +:+ ", Test samples: " +:+ show_nat (shape0 r.1.1.2))] in
    match preprocess (ext s) with
    | (Ok r, e1) => (Ok r, State e1 (trace s ++ start ++ done_ r))
    | (Raise x1, e1) =>
        if is_Exception x1 then
          match preprocess e1 with
          | (Ok r, e2) => (Ok r, State e2 (trace s ++ start ++ again ++ done_ r))
          | (Raise x2, e2) =>
              if is_Exception x2 then
                match preprocess e2 with
                | (Ok r, e3) =>
                    (Ok r, State e3 (trace s ++ start ++ again ++ again ++ done_ r))
                | (Raise x3, e3) =>
                    (Raise x3, State e3 (trace s ++ start ++ again ++ again))
                end
              else (Raise x2, State e2 (trace s ++ start ++ again))
          end
        else (Raise x1, State e1 (trace s ++ start))
    end.
Proof.
  unfold preprocess_task, task, preprocess_options, preprocess_body; simpl.
  unfold bind, logger_info, emit, call, ret; simpl.
  destruct (preprocess (ext s)) as [[[[[a b] c] d]|x] e1]; simpl.
  - by rewrite <- !app_assoc.
  - destruct (is_Exception x); simpl; [|by rewrite <- !app_assoc].
    destruct (preprocess e1) as [[[[[a b] c] d]|x'] e2]; simpl.
    + by rewrite <- !app_assoc.
    + destruct (is_Exception x'); simpl; [|by rewrite <- !app_assoc].
      destruct (preprocess e2) as [[[[[a b] c] d]|x''] e3]; simpl;
        [|destruct (is_Exception x'')]; by rewrite <- !app_assoc.
Qed.

(** The run of the evaluate task: one attempt. *)
Lemma evaluate_task_run (s : state) :
  evaluate_task s =
    let t1 := trace s ++ [Log "Starting model evaluation..."; Call Evaluate] in
    match evaluate (ext s) with
    | (Ok _, e1) =>
        (Ok tt, State e1 (t1 ++ [Log "Model evaluation complete. Metrics saved to reports/metrics.json"]))
    | (Raise x, e1) => (Raise x, State e1 t1)
    end.
Proof.
  unfold evaluate_task, task, evaluate_options, evaluate_body; simpl.
  unfold bind, logger_info, emit, call; simpl.
  destruct (evaluate (ext s)) as [[[]|x] e1]; simpl;
    [|destruct (is_Exception x)]; by rewrite <- !app_assoc.
Qed.

Lemma task_shape {A} (d : step) (opts : task_options) (fn : M A) :
  one_call d fn ->
  forall s, exists evs k,
    trace (task opts fn s).2 = trace s ++ evs /\
    calls evs = replicate k d /\ 1 <= k <= S (retries opts).
Proof.
  intros Hfn s. unfold task.
  destruct (attempt_shape d fn (retry_delay_seconds opts) Hfn (retries opts) s)
    as (evs & k & Ht & Hc & _ & Hk & _).
  by exists evs, k.
Qed.

Lemma replicate_in_order (kp kt ke : nat) :
  in_pipeline_order
    (replicate kp Preprocess ++ replicate kt Train ++ replicate ke Evaluate).
Proof.
  unfold in_pipeline_order.
  assert (Hrep : forall k d, StronglySorted (fun a b => step_rank a <= step_rank b)
                               (replicate k d)).
  { intros k d. induction k as [|k IH]; simpl; constructor; [done|].
    apply Forall_forall. intros y Hy. apply elem_of_replicate in Hy as [-> _]. lia. }
  apply StronglySorted_app_2; [|apply Hrep|].
  - intros a b Ha Hb. apply elem_of_replicate in Ha as [-> _].
    apply elem_of_app in Hb as [Hb|Hb]; apply elem_of_replicate in Hb as [-> _];
      simpl; lia.
  - apply StronglySorted_app_2; [|apply Hrep|apply Hrep].
    intros a b Ha Hb. apply elem_of_replicate in Ha as [-> _].
    apply elem_of_replicate in Hb as [-> _]. simpl; lia.
Qed.

Lemma makes_ret {A} (a : A) : makes (ret a) (fun r cs => r = Ok a /\ cs = []).
Proof. intros s. exists []. simpl. by rewrite app_nil_r. Qed.

Lemma makes_logger_info (msg : string) :
  makes (logger_info msg) (fun r cs => r = Ok tt /\ cs = []).
Proof. intros s. by exists [Log msg]. Qed.

Lemma makes_bind {A B} (m : M A) (k : A -> M B) P Q :
  makes m P -> (forall a, makes (k a) (Q a)) -> makes (bind m k) (then_makes P Q).
Proof.
  intros Hm Hk s. destruct (Hm s) as (evs1 & Ht1 & HP).
  unfold bind, then_makes. destruct (m s) as [[a|x] s1]; simpl in *.
  - destruct (Hk a s1) as (evs2 & Ht2 & HQ).
    exists (evs1 ++ evs2). split.
    + rewrite Ht2, Ht1. by rewrite app_assoc.
    + right. exists a, (calls evs1), (calls evs2). by rewrite calls_app.
  - exists evs1. split; [done|]. left. by exists x.
Qed.

Lemma makes_weaken {A} (m : M A) (P Q : outcome A -> list step -> Prop) :
  makes m P -> (forall r cs, P r cs -> Q r cs) -> makes m Q.
Proof.
  intros Hm HPQ s. destruct (Hm s) as (evs & Ht & HP). exists evs. auto.
Qed.

Lemma makes_task {A} (d : step) (opts : task_options) (fn : M A) :
  one_call d fn ->
  makes (task opts fn) (fun _ cs => calls_of d 1 (S (retries opts)) cs).
Proof.
  intros Hfn s. destruct (task_shape d opts fn Hfn s) as (evs & k & Ht & Hc & Hk).
  exists evs. split; [done|]. by exists k.
Qed.

(** A step of the flow behind its toggle. *)
Lemma makes_guarded {A} (b : bool) (d : step) (tsk : M A) (n : nat)
    (key : string) (results : status) :
  makes tsk (fun _ cs => calls_of d 1 n cs) ->
  makes (if b then bind tsk (fun _ => ret (dict_set key true results)) else ret results)
        (fun r cs =>
           calls_of d (if b then 1 else 0) (if b then n else 0) cs /\
           forall st, r = Ok st ->
                      st = if b then dict_set key true results else results).
Proof.
  intros Htsk. destruct b.
  - eapply makes_weaken; [eapply makes_bind; [exact Htsk|intros a; apply makes_ret]|].
    intros r cs [(x & -> & Hc)|(a & c1 & c2 & Hc & [-> ->] & ->)].
    + split; [done|]. by intros st.
    + rewrite app_nil_r. split; [done|]. by intros st [= <-].
  - eapply makes_weaken; [apply makes_ret|].
    intros r cs [-> ->]. split; [by exists 0|]. by intros st [= <-].
Qed.

Lemma calls_of_weaken (d : step) (lo hi lo' hi' : nat) (cs : list step) :
  calls_of d lo hi cs -> lo' <= lo -> hi <= hi' -> calls_of d lo' hi' cs.
Proof. intros (k & -> & Hk) ? ?. exists k. split; [done|lia]. Qed.

Lemma calls_of_nil (d : step) (hi : nat) : calls_of d 0 hi [].
Proof. exists 0. split; [done|lia]. Qed.

#[local] Ltac solve_calls :=
  try done; try apply calls_of_nil;
  try (eapply calls_of_weaken; [eassumption| |];
       repeat match goal with |- context [if ?b then _ else _] => destruct b end; lia).

Lemma makes_kidney_ml_pipeline (p t e : bool) :
  makes (kidney_ml_pipeline p t e) (flow_post p t e).
Proof.
  unfold kidney_ml_pipeline.
  eapply makes_weaken.
  { eapply makes_bind; [apply makes_logger_info|]. intros u.
    eapply makes_bind.
    { apply (makes_guarded p Preprocess preprocess_task 3).
      apply (makes_task Preprocess preprocess_options), preprocess_body_one_call. }
    intros r1. eapply makes_bind.
    { apply (makes_guarded t Train train_task 2).
      apply (makes_task Train train_options), train_body_one_call. }
    intros r2. eapply makes_bind.
    { apply (makes_guarded e Evaluate evaluate_task 1).
      apply (makes_task Evaluate evaluate_options), evaluate_body_one_call. }
    intros r3. eapply makes_bind; [apply makes_logger_info|].
    intros u'. apply makes_ret. }
  intros r cs [(x & _ & [[=] _])|(u0 & c0 & cs1 & [_ Hc0] & H1 & Hcs)].
  subst c0 cs. simpl.
  destruct H1 as [(x & -> & Hp & _)|(r1 & cp & cs2 & [Hp Hr1] & H2 & ->)].
  { exists cs1, [], []. rewrite !app_nil_r. repeat split; solve_calls. }
  specialize (Hr1 _ eq_refl). subst r1.
  destruct H2 as [(x & -> & Ht & _)|(r2 & ct & cs3 & [Ht Hr2] & H3 & ->)].
  { exists cp, cs2, []. rewrite !app_nil_r. repeat split; solve_calls. }
  specialize (Hr2 _ eq_refl). subst r2.
  destruct H3 as [(x & -> & He & _)|(r3 & ce & cs4 & [He Hr3] & H4 & ->)].
  { exists cp, ct, cs3. repeat split; solve_calls. }
  specialize (Hr3 _ eq_refl). subst r3.
  destruct H4 as [(x & _ & [[=] _])|(u5 & c5 & c6 & [_ Hc5] & [Hr Hc6] & Hcs)].
  subst c5 c6 cs4 r.
  exists cp, ct, ce. rewrite !app_nil_r.
  split; [done|]. repeat split; solve_calls.
  match goal with Hst : Ok _ = Ok _ |- _ => injection Hst as <- end.
  by destruct p, t, e.
Qed.

Lemma flow_post_order (p t e : bool) r cs :
  flow_post p t e r cs ->
  in_pipeline_order cs /\ (forall d, d ∈ cs -> d ∈ enabled p t e).
Proof.
  intros (cp & ct & ce & -> & (kp & -> & Hp) & (kt & -> & Ht) & (ke & -> & He) & _).
  split; [apply replicate_in_order|].
  intros d Hd. unfold enabled.
  rewrite !elem_of_app in Hd. rewrite !elem_of_app.
  destruct Hd as [Hd|[Hd|Hd]]; apply elem_of_replicate in Hd as [-> Hk].
  - left. destruct p; [by constructor|lia].
  - right; left. destruct t; [by constructor|lia].
  - right; right. destruct e; [by constructor|lia].
Qed.

(** A task whose delegate returns makes one call and returns. *)
Lemma makes_task_ok {A} (d : step) (opts : task_options) (fn : M A) :
  makes fn (fun r cs => is_ok r = true /\ cs = [d]) ->
  makes (task opts fn) (fun r cs => is_ok r = true /\ cs = [d]).
Proof.
  intros Hfn s. destruct (Hfn s) as (evs & Ht & Hok & Hc).
  unfold task. rewrite attempt_first_ok by done. by exists evs.
Qed.

Lemma makes_guarded_ok {A} (b : bool) (d : step) (tsk : M A)
    (key : string) (results : status) :
  makes tsk (fun r cs => is_ok r = true /\ cs = [d]) ->
  makes (if b then bind tsk (fun _ => ret (dict_set key true results)) else ret results)
        (fun r cs => r = Ok (if b then dict_set key true results else results) /\
                     cs = if b then [d] else []).
Proof.
  intros Htsk. destruct b; [|apply makes_ret].
  eapply makes_weaken; [eapply makes_bind; [exact Htsk|intros a; apply makes_ret]|].
  intros r cs [(x & -> & [=] & _)|(a & c1 & c2 & [_ ->] & [-> ->] & ->)]. done.
Qed.

Lemma makes_kidney_ml_pipeline_ok (p t e : bool) :
  (forall x, is_ok (preprocess x).1 = true) ->
  (forall x, is_ok (train x).1 = true) ->
  (forall x, is_ok (evaluate x).1 = true) ->
  makes (kidney_ml_pipeline p t e)
        (fun r cs => r = Ok (status_of p t e) /\ cs = enabled p t e).
Proof.
  intros Hp Ht He.
  assert (Hbp : makes preprocess_body (fun r cs => is_ok r = true /\ cs = [Preprocess])).
  { intros s. unfold preprocess_body, bind, logger_info, emit, call, ret; simpl.
    specialize (Hp (ext s)).
    destruct (preprocess (ext s)) as [[[[[a b] c] d]|x] e1]; simpl in *; [|done].
    eexists; split; [rewrite <- ?app_assoc; reflexivity|done]. }
  assert (Hbt : makes train_body (fun r cs => is_ok r = true /\ cs = [Train])).
  { intros s. unfold train_body, bind, logger_info, emit, call; simpl.
    specialize (Ht (ext s)).
    destruct (train (ext s)) as [[[]|x] e1]; simpl in *; [|done].
    eexists; split; [rewrite <- ?app_assoc; reflexivity|done]. }
  assert (Hbe : makes evaluate_body (fun r cs => is_ok r = true /\ cs = [Evaluate])).
  { intros s. unfold evaluate_body, bind, logger_info, emit, call; simpl.
    specialize (He (ext s)).
    destruct (evaluate (ext s)) as [[[]|x] e1]; simpl in *; [|done].
    eexists; split; [rewrite <- ?app_assoc; reflexivity|done]. }
  unfold kidney_ml_pipeline. eapply makes_weaken.
  { eapply makes_bind; [apply makes_logger_info|]. intros u.
    eapply makes_bind.
    { apply (makes_guarded_ok p Preprocess preprocess_task).
      apply makes_task_ok, Hbp. }
    intros r1. eapply makes_bind.
    { apply (makes_guarded_ok t Train train_task). apply makes_task_ok, Hbt. }
    intros r2. eapply makes_bind.
    { apply (makes_guarded_ok e Evaluate evaluate_task). apply makes_task_ok, Hbe. }
    intros r3. eapply makes_bind; [apply makes_logger_info|].
    intros u'. apply makes_ret. }
  intros r cs [(x & _ & [[=] _])|(u0 & c0 & cs1 & [_ Hc0] & H1 & Hcs)].
  subst c0 cs. simpl.
  destruct H1 as [(x & -> & [=] & _)|(r1 & cp & cs2 & [[= ->] ->] & H2 & ->)].
  destruct H2 as [(x & -> & [=] & _)|(r2 & ct & cs3 & [[= ->] ->] & H3 & ->)].
  destruct H3 as [(x & -> & [=] & _)|(r3 & ce & cs4 & [[= ->] ->] & H4 & ->)].
  destruct H4 as [(x & _ & [[=] _])|(u5 & c5 & c6 & [_ ->] & [-> ->] & ->)].
  split; [by destruct p, t, e|]. unfold enabled. by rewrite !app_nil_r.
Qed.

Lemma call_count_replicate (d d' : step) (k : nat) :
  call_count_in d (replicate k d') = if decide (d' = d) then k else 0.
Proof.
  unfold call_count_in. induction k as [|k IH]; simpl.
  - by case_decide.
  - rewrite filter_cons. case_decide; simpl; [by rewrite IH|done].
Qed.

(** The run of the flow with only the training toggle on. *)
Lemma training_only_run (s : state) :
  kidney_ml_pipeline false true false s =
    match train_task (State (ext s) (trace s ++ [Log "Starting Kidney MLOps Pipeline..."])) with
    | (Ok _, s1) =>
        (Ok (status_of false true false),
         State (ext s1) (trace s1 ++ [Log "Pipeline execution complete!"]))
    | (Raise x, s1) => (Raise x, s1)
    end.
Proof.
  unfold kidney_ml_pipeline, bind, ret, logger_info, emit. cbn beta iota.
  by destruct (train_task _) as [[[]|x] s1].
Qed.

(** C4. Called with the three toggles false, the full flow returns a
    status mapping whose preprocessing, training and evaluation flags are
    all false, and invokes none of the three delegates: the external state
    is untouched and the run adds no call to the trace. *)
Theorem all_toggles_off (s : state) :
  exists st s',
    kidney_ml_pipeline false false false s = (Ok st, s') /\
    dict_get "preprocessing" st = Some false /\
    dict_get "training" st = Some false /\
    dict_get "evaluation" st = Some false /\
    ext s' = ext s /\
    forall d, call_count d (added s s') = 0.
Proof.
  eexists _, _. split.
  { unfold kidney_ml_pipeline, bind, ret, logger_info, emit. simpl. reflexivity. }
  simpl. repeat split. intros d. unfold call_count.
  erewrite added_app; [|simpl; rewrite <- app_assoc; reflexivity]. done.
Qed.

(** C5. Called with only the training toggle on, and with a train
    delegate that returns, the full flow invokes the train delegate exactly
    once and the preprocess and evaluate delegates not at all, and returns
    the status mapping with training true and preprocessing and evaluation
    false; the external state is the one the train delegate left. *)
Theorem training_only (s : state) (Hret : is_ok (train (ext s)).1 = true) :
  let r := kidney_ml_pipeline false true false s in
  r.1 = Ok [("preprocessing", false); ("training", true); ("evaluation", false)] /\
  call_count Train (added s r.2) = 1 /\
  call_count Preprocess (added s r.2) = 0 /\
  call_count Evaluate (added s r.2) = 0 /\
  calls (added s r.2) = [Train] /\
  ext r.2 = (train (ext s)).2.
Proof.
  cbv zeta. rewrite training_only_run, train_task_run. simpl.
  unfold call_count.
  destruct (train (ext s) ) as [[[]|x] e1]; simpl in *; [|done].
  erewrite added_app; [|simpl; rewrite <- !app_assoc; reflexivity].
  by repeat split.
Qed.

(** C6. The declared retry policies are: preprocess two retries with a
    delay of 10 between attempts, train one retry, evaluate none.  The
    task runner acts on them.  Preprocess: when the delegate raises an
    [Exception] on its first two attempts, the task makes a third attempt,
    having waited 10 before the second and before the third, and the
    outcome of the third attempt is the outcome of the task, so there is
    no fourth; no run makes more than three.  Evaluate: the task makes one
    attempt, never waits, and an exception of the delegate is raised at
    once.  Train: when the delegate raises an [Exception] on its first
    attempt and raises again on its second, the task raises the exception
    of the second attempt after exactly two invocations of the delegate:
    there is no third attempt. *)
Theorem retry_policies (s : state) (x1 x2 : exn) (e1 e2 : Ext)
    (H1 : train (ext s) = (Raise x1, e1))
    (Hx1 : is_Exception x1 = true)
    (H2 : train e1 = (Raise x2, e2)) :
  (retries preprocess_options = 2 /\ retry_delay_seconds preprocess_options = 10 /\
   retries train_options = 1 /\ retries evaluate_options = 0) /\
  (forall s0 y1 y2 a1 a2,
      preprocess (ext s0) = (Raise y1, a1) -> is_Exception y1 = true ->
      preprocess a1 = (Raise y2, a2) -> is_Exception y2 = true ->
      let r := preprocess_task s0 in
      calls (added s0 r.2) = [Preprocess; Preprocess; Preprocess] /\
      waits (added s0 r.2) = [10; 10] /\
      r.1 = (preprocess a2).1 /\
      ext r.2 = (preprocess a2).2) /\
  (forall s0, exists k,
      calls (added s0 (preprocess_task s0).2) = replicate k Preprocess /\
      waits (added s0 (preprocess_task s0).2) = replicate (k - 1) 10 /\
      1 <= k <= 3) /\
  (forall s0,
      let r := evaluate_task s0 in
      calls (added s0 r.2) = [Evaluate] /\
      waits (added s0 r.2) = [] /\
      r.1 = (evaluate (ext s0)).1 /\
      ext r.2 = (evaluate (ext s0)).2) /\
  (train_task s).1 = Raise x2 /\
  ext (train_task s).2 = e2 /\
  calls (added s (train_task s).2) = [Train; Train] /\
  waits (added s (train_task s).2) = [0].
Proof.
  split; [done|]. split; [|split; [|split]].
  - intros s0 y1 y2 a1 a2 Hp1 Hy1 Hp2 Hy2. cbv zeta.
    rewrite preprocess_task_run. cbv zeta. rewrite Hp1, Hy1, Hp2, Hy2.
    destruct (preprocess a2) as [[r3|y3] a3]; cbn [fst snd ext];
      (erewrite added_app; [|cbn [trace]; reflexivity]); done.
  - intros s0. unfold preprocess_task, task.
    destruct (attempt_shape Preprocess preprocess_body 10 preprocess_body_one_call 2 s0)
      as (evs & k & Ht & Hc & Hw & Hk & _).
    exists k. erewrite added_app by exact Ht. done.
  - intros s0. cbv zeta. rewrite evaluate_task_run. cbv zeta.
    destruct (evaluate (ext s0)) as [[[]|y] a1]; cbn [fst snd ext];
      (erewrite added_app; [|cbn [trace]; rewrite <- ?app_assoc; reflexivity]); done.
  - rewrite train_task_run. cbv zeta. rewrite H1, Hx1, H2. cbn [fst snd ext].
    repeat split;
      (erewrite added_app; [|cbn [trace]; rewrite <- !app_assoc; reflexivity]); done.
Qed.

(** C7. For every combination of the toggles the delegates are invoked
    in the order preprocess, train, evaluate: no delegate is invoked after
    a delegate of a later step, and only delegates of enabled steps are
    invoked.  No combination is rejected: when the delegates return, the
    flow returns with each flag equal to its toggle, after invoking exactly
    the delegates of the enabled steps, in order. *)
Theorem steps_in_fixed_order (p t e : bool) (s : state) :
  let r := kidney_ml_pipeline p t e s in
  in_pipeline_order (calls (added s r.2)) /\
  (forall d, d ∈ calls (added s r.2) -> d ∈ enabled p t e) /\
  ((forall x, is_ok (preprocess x).1 = true) ->
   (forall x, is_ok (train x).1 = true) ->
   (forall x, is_ok (evaluate x).1 = true) ->
   r.1 = Ok (status_of p t e) /\ calls (added s r.2) = enabled p t e).
Proof.
  cbv zeta. split; [|split].
  - destruct (makes_kidney_ml_pipeline p t e s) as (evs & Ht & Hpost).
    rewrite (added_app _ _ _ Ht). by eapply flow_post_order.
  - destruct (makes_kidney_ml_pipeline p t e s) as (evs & Ht & Hpost).
    rewrite (added_app _ _ _ Ht). by eapply flow_post_order.
  - intros Hp Htr He.
    destruct (makes_kidney_ml_pipeline_ok p t e Hp Htr He s) as (evs & Ht & Hr & Hc).
    by rewrite (added_app _ _ _ Ht).
Qed.

End Facts.

Lemma retry_policies_example :
  (@train_task (flaky_train 2) (@State (flaky_train 2) 0 [])).1
    = Raise (Exn "RuntimeError" "training failed") /\
  calls (@added (flaky_train 2) (@State (flaky_train 2) 0 [])
           (@train_task (flaky_train 2) (@State (flaky_train 2) 0 [])).2)
    = [Train; Train].
Proof.
  pose proof (@retry_policies (flaky_train 2) (@State (flaky_train 2) 0 [])
                (Exn "RuntimeError" "training failed")
                (Exn "RuntimeError" "training failed") 1 2 eq_refl eq_refl eq_refl)
    as (_ & _ & _ & _ & Hr & _ & Hc & _).
  exact (conj Hr Hc).
Defined.

Lemma steps_in_fixed_order_example :
  (@kidney_ml_pipeline (flaky_train 0) false true true (@State (flaky_train 0) 0 [])).1
    = Ok [("preprocessing", false); ("training", true); ("evaluation", true)].
Proof.
  pose proof (@steps_in_fixed_order (flaky_train 0) false true true
                (@State (flaky_train 0) 0 [])) as (_ & _ & Hok).
  apply Hok; intros x; reflexivity.
Defined.

Lemma training_only_example :
  (@kidney_ml_pipeline (flaky_train 0) false true false (@State (flaky_train 0) 0 [])).1
    = Ok [("preprocessing", false); ("training", true); ("evaluation", false)] /\
  call_count Train
    (@added (flaky_train 0) (@State (flaky_train 0) 0 [])
       (@kidney_ml_pipeline (flaky_train 0) false true false
          (@State (flaky_train 0) 0 [])).2) = 1.
Proof.
  pose proof (@training_only (flaky_train 0) (@State (flaky_train 0) 0 []) eq_refl)
    as (Hok & Hc & _).
  exact (conj Hok Hc).
Defined.

End PipelineSpec.

(** * Properties of the drift monitoring *)

Module MonitoringSpec.
Import Monitoring.

Section Facts.

Context {project : Project} {pandas : Pandas} {evidently : Evidently}
        {builtins : Builtins}.

Lemma lookup_setitem_eq (k : string) (v : pyval) (d : dict) :
  lookup_key k (setitem k v d) = Some v.
Proof.
  induction d as [|[k' v'] d IH]; simpl.
  - by rewrite String.eqb_refl.
  - destruct (String.eqb k k') eqn:E; simpl; [by rewrite String.eqb_refl|by rewrite E].
Qed.

Lemma lookup_setitem_ne (k k' : string) (v : pyval) (d : dict) :
  k <> k' -> lookup_key k' (setitem k v d) = lookup_key k' d.
Proof.
  intros Hne. induction d as [|[k0 v0] d IH]; simpl.
  - destruct (String.eqb k' k) eqn:E; [|done].
    apply String.eqb_eq in E. congruence.
  - destruct (String.eqb k k0) eqn:E; simpl.
    + apply String.eqb_eq in E. subst k0.
      destruct (String.eqb k' k) eqn:E'; [|done].
      apply String.eqb_eq in E'. congruence.
    + by rewrite IH.
Qed.

Lemma added_events (w w' : world) (evs : list event) :
  log w' = log w ++ evs -> added w w' = evs.
Proof. intros E. unfold added. rewrite E. apply drop_app_length. Qed.

Ltac unfold_run_in H :=
  unfold generate_full_monitoring_report, generate_drift_report,
    generate_data_summary_report,
    load_reference_data, get_data_definition,
    save_html, json_dump, mkdir_parents_exist_ok, write_file,
    now_isoformat, print, emit, bind, lift, ret in H;
  cbn beta iota zeta delta [dirs files clock log] in H.

Ltac exec_all_in H :=
  unfold_run_in H;
  repeat (
    match type of H with
    | context [match ?x with _ => _ end] =>
        lazymatch x with
        | context [match _ with _ => _ end] => fail
        | _ => destruct x eqn:?
        end
    end;
    cbn beta iota zeta delta [dirs files clock log] in H).

Ltac exec_in H := exec_all_in H; try discriminate.

Ltac use_eqs :=
  repeat match goal with
         | E : ?x = Ok _ |- context [?x] => rewrite E
         | E : ?x = Raise _ |- context [?x] => rewrite E
         end.

Ltac by_eqs :=
  unfold resolve_reference, resolve_current, simulate_current, drift_run,
    summary_run, metric_results_of, data_definition_of, bind_outcome,
    base_summary, drift_report_path, data_summary_report_path, reports_dir;
  cbn [default from_option id];
  use_eqs; rewrite <- ?app_assoc; first [reflexivity | eassumption].

Lemma generate_drift_report_ok cur ref out w summary w' :
  generate_drift_report cur ref out w = (Ok summary, w') ->
  exists r c run_result metrics,
    resolve_reference ref = Ok r /\
    resolve_current r cur = Ok c /\
    drift_run r c = Ok run_result /\
    metric_results_of run_result = Ok metrics /\
    let p := default drift_report_path out in
    extract_drift metrics (base_summary r c p (isoformat_at (clock w))) = Ok summary /\
    files w' = <[p := Html (html_of run_result)]> (files w) /\
    clock w' = S (clock w) /\
    match out with
    | None =>
        dirs w' = list_to_set (prefixes reports_dir) ∪ dirs w /\
        log w' = log w ++ [Enter "generate_drift_report"; Mkdir reports_dir;
                           SaveHtml p; Print ("Drift report saved to: " +:+ path_str p)]
    | Some _ =>
        dirs w' = dirs w /\ is_dir w (parent p) = true /\
        log w' = log w ++ [Enter "generate_drift_report";
                           SaveHtml p; Print ("Drift report saved to: " +:+ path_str p)]
    end.
Proof.
  intros Hrun. exec_in Hrun.
  all: injection Hrun as Hsum <-; cbn [dirs files clock log].
  all: eexists _, _, _, _.
  all: do 7 (split; [by_eqs|]).
  all: repeat (split; [by_eqs|]); try by_eqs.
  all: cbn [default from_option id].
  all: split; [unfold is_dir in *; cbn [dirs] in *; by apply negb_false_iff | by_eqs].
Qed.

Lemma generate_data_summary_report_ok data out w summary w' :
  generate_data_summary_report data out w = (Ok summary, w') ->
  exists d run_result,
    resolve_reference data = Ok d /\
    summary_run d = Ok run_result /\
    let p := default data_summary_report_path out in
    summary = [("timestamp", PStr (isoformat_at (clock w)));
               ("samples", PInt (len d));
               ("report_path", PStr (path_str p))] /\
    files w' = <[p := Html (html_of run_result)]> (files w) /\
    clock w' = S (clock w) /\
    match out with
    | None =>
        dirs w' = list_to_set (prefixes reports_dir) ∪ dirs w /\
        log w' = log w ++ [Enter "generate_data_summary_report"; Mkdir reports_dir;
                           SaveHtml p;
                           Print ("Data summary report saved to: " +:+ path_str p)]
    | Some _ =>
        dirs w' = dirs w /\ is_dir w (parent p) = true /\
        log w' = log w ++ [Enter "generate_data_summary_report";
                           SaveHtml p;
                           Print ("Data summary report saved to: " +:+ path_str p)]
    end.
Proof.
  intros Hrun. exec_in Hrun.
  all: injection Hrun as <- <-; cbn [dirs files clock log].
  all: eexists _, _.
  all: do 5 (split; [by_eqs|]).
  all: repeat (split; [by_eqs|]); try by_eqs.
  all: cbn [default from_option id].
  all: split; [unfold is_dir in *; cbn [dirs] in *; by apply negb_false_iff | by_eqs].
Qed.

Ltac effects_leaf :=
  unfold drift_report_path, data_summary_report_path, reports_dir in *;
  cbn [dirs files clock log snd default from_option id];
  eexists; split; [rewrite <- ?app_assoc; reflexivity|];
  split; [reflexivity|];
  split; [intros q Hq; rewrite ?lookup_insert_ne by congruence; reflexivity
         |intros [? Hs]; try discriminate Hs; split; reflexivity].

Lemma generate_drift_report_effects cur ref out w :
  let w' := (generate_drift_report cur ref out w).2 in
  exists evs,
    log w' = log w ++ Enter "generate_drift_report" :: evs /\
    forallb is_report_io evs = true /\
    (forall q, q <> default drift_report_path out -> files w' !! q = files w !! q) /\
    (is_Some out -> existsb is_mkdir evs = false /\ dirs w' = dirs w).
Proof.
  destruct (generate_drift_report cur ref out w) as [o w'] eqn:Hrun.
  exec_all_in Hrun.
  all: injection Hrun as <- <-.
  all: effects_leaf.
Qed.

Lemma generate_data_summary_report_effects data out w :
  let w' := (generate_data_summary_report data out w).2 in
  exists evs,
    log w' = log w ++ Enter "generate_data_summary_report" :: evs /\
    forallb is_report_io evs = true /\
    (forall q, q <> default data_summary_report_path out -> files w' !! q = files w !! q) /\
    (is_Some out -> existsb is_mkdir evs = false /\ dirs w' = dirs w).
Proof.
  destruct (generate_data_summary_report data out w) as [o w'] eqn:Hrun.
  exec_all_in Hrun.
  all: injection Hrun as <- <-.
  all: effects_leaf.
Qed.

Lemma generate_full_monitoring_report_steps cur ref w r c :
  resolve_reference ref = Ok r ->
  resolve_current r cur = Ok c ->
  generate_full_monitoring_report cur ref w =
  match generate_drift_report (Some c) (Some r) None (drift_step_world w) with
  | (Raise x, w2) => (Raise x, w2)
  | (Ok d, w2) =>
      match generate_data_summary_report (Some c) None (summary_step_world w2) with
      | (Raise x, w3) => (Raise x, w3)
      | (Ok s, w3) =>
          let results := [("timestamp", PStr (isoformat_at (clock w)));
                          ("data_drift", PDict d); ("data_summary", PDict s)] in
          match json_dump (PDict results) summary_path w3 with
          | (Raise x, w4) => (Raise x, w4)
          | (Ok _, w4) => (Ok results, epilogue_world w4)
          end
      end
  end.
Proof.
  intros Hr Hc.
  unfold generate_full_monitoring_report, load_reference_data, now_isoformat,
    print, emit, bind, lift, ret, drift_step_world, summary_step_world,
    epilogue_world, summary_path, reports_dir.
  unfold resolve_reference, resolve_current, simulate_current, bind_outcome in Hr, Hc.
  cbn beta iota zeta delta [dirs files clock log].
  assert (Hset : forall ts d s,
    setitem "data_summary" (PDict s) (setitem "data_drift" (PDict d) [("timestamp", PStr ts)])
    = [("timestamp", PStr ts); ("data_drift", PDict d); ("data_summary", PDict s)])
    by reflexivity.
  destruct ref as [r0|], cur as [c0|]; simplify_eq.
  all: repeat match type of Hr with
              | context [match ?x with _ => _ end] => destruct x eqn:?; try discriminate
              end.
  all: repeat match type of Hc with
              | context [match ?x with _ => _ end] => destruct x eqn:?; try discriminate
              end.
  all: simplify_eq; use_eqs; cbn beta iota zeta delta [dirs files clock log].
  all: rewrite <- !app_assoc; cbn [app].
  all: destruct (generate_drift_report _ _ _ _) as [[d|x] w2]; [|reflexivity].
  all: cbn beta iota zeta delta [dirs files clock log].
  all: destruct (generate_data_summary_report _ _ _) as [[s|x] w3]; [|reflexivity].
  all: rewrite Hset.
  all: destruct (json_dump _ _ _) as [[u|x] w4]; [|reflexivity].
  all: cbn beta iota zeta delta [dirs files clock log].
  all: rewrite <- !app_assoc; reflexivity.
Qed.

Lemma generate_full_monitoring_report_resolved cur ref w results w' :
  generate_full_monitoring_report cur ref w = (Ok results, w') ->
  exists r c, resolve_reference ref = Ok r /\ resolve_current r cur = Ok c.
Proof.
  intros Hrun.
  unfold generate_full_monitoring_report, load_reference_data, now_isoformat,
    print, emit, bind, lift, ret in Hrun.
  cbn beta iota zeta delta [dirs files clock log] in Hrun.
  repeat (
    match type of Hrun with
    | context [match ?x with _ => _ end] =>
        lazymatch x with
        | context [match _ with _ => _ end] => fail
        | _ => destruct x eqn:?
        end
    end;
    cbn beta iota zeta delta [dirs files clock log] in Hrun);
  try discriminate.
  all: eexists _, _; split; by_eqs.
Qed.

(** The extraction loop *)

Lemma last_drift_result_cons metric rest :
  last_drift_result (metric :: rest) =
  match last_drift_result rest with
  | Some r => Some r
  | None => drift_result_of metric
  end.
Proof.
  unfold last_drift_result. cbn [omap list_omap].
  destruct (drift_result_of metric); [rewrite last_cons|];
    by destruct (last _).
Qed.

Lemma extract_drift_fields metrics : forall summary summary',
  extract_drift metrics summary = Ok summary' ->
  match last_drift_result metrics with
  | Some result =>
      exists res, result = PDict res /\
        lookup_key "dataset_drift" summary'
          = Some (dict_get "dataset_drift" (PBool false) res) /\
        lookup_key "drift_share" summary'
          = Some (dict_get "drift_share" (PFloat float_0_0) res) /\
        lookup_key "number_of_drifted_columns" summary'
          = Some (dict_get "number_of_drifted_columns" (PInt 0) res)
  | None => summary' = summary
  end.
Proof.
  induction metrics as [|metric rest IH]; intros s s' Hx.
  - injection Hx as <-. reflexivity.
  - rewrite last_drift_result_cons.
    cbn [extract_drift] in Hx.
    destruct metric as [| | | | |l|m]; try discriminate Hx.
    cbn [py_get bind_outcome drift_result_of] in Hx |- *.
    set (result := dict_get "result" (PDict []) m) in *.
    unfold orb.
    destruct (if contains "DatasetDrift" (py_str (dict_get "metric" (PStr "") m))
              then true else contains "dataset_drift" (py_str result)) eqn:Hc.
    + destruct result as [| | | | |l|res]; try discriminate Hx.
      cbn [py_get bind_outcome] in Hx.
      apply IH in Hx.
      destruct (last_drift_result rest) as [r'|]; [exact Hx|].
      subst s'. exists res. split; [reflexivity|].
      rewrite !lookup_setitem_eq.
      rewrite !(lookup_setitem_ne "number_of_drifted_columns") by discriminate.
      rewrite !lookup_setitem_eq.
      rewrite !(lookup_setitem_ne "drift_share") by discriminate.
      rewrite !lookup_setitem_eq. done.
    + apply IH in Hx. by destruct (last_drift_result rest).
Qed.

Lemma extract_drift_other metrics (k : string) : forall summary summary',
  extract_drift metrics summary = Ok summary' ->
  k ∉ drift_keys ->
  lookup_key k summary' = lookup_key k summary.
Proof.
  intros s s' Hx Hk. revert s s' Hx.
  assert (Hk1 : "dataset_drift" <> k) by (intros <-; apply Hk; set_solver).
  assert (Hk2 : "drift_share" <> k) by (intros <-; apply Hk; set_solver).
  assert (Hk3 : "number_of_drifted_columns" <> k) by (intros <-; apply Hk; set_solver).
  induction metrics as [|metric rest IH]; intros s s' Hx.
  - by injection Hx as <-.
  - cbn [extract_drift] in Hx.
    destruct metric as [| | | | |l|m]; try discriminate Hx.
    cbn [py_get bind_outcome] in Hx.
    destruct (if contains "DatasetDrift" _ then true else _).
    + destruct (dict_get "result" (PDict []) m) as [| | | | |l|res];
        try discriminate Hx.
      cbn [py_get bind_outcome] in Hx.
      apply IH in Hx. rewrite Hx.
      by rewrite !lookup_setitem_ne.
    + by apply IH in Hx.
Qed.

(** The shift of the numeric columns *)

Lemma shift_numeric_nrows cols : forall df df',
  shift_numeric cols df = Ok df' -> nrows df' = nrows df.
Proof.
  induction cols as [|col rest IH]; intros df df' Hs; cbn [shift_numeric] in Hs.
  - by injection Hs as <-.
  - destruct (columns df !! col) as [s|]; [|by apply IH].
    destruct (series_mul s float_1_05) as [s'|x]; [|discriminate].
    cbn [bind_outcome] in Hs. by apply IH in Hs.
Qed.

Lemma occurrences_cons_eq (col : string) (cols : list string) :
  occurrences col (col :: cols) = S (occurrences col cols).
Proof. unfold occurrences. by rewrite count_occ_cons_eq. Qed.

Lemma occurrences_cons_ne (col col0 : string) (cols : list string) :
  col0 <> col -> occurrences col (col0 :: cols) = occurrences col cols.
Proof. intros Hne. unfold occurrences. by rewrite count_occ_cons_neq. Qed.

Lemma occurrences_unlisted (col : string) (cols : list string) :
  col ∉ cols -> occurrences col cols = 0.
Proof.
  intros Hin. unfold occurrences. apply count_occ_not_In.
  by rewrite <- list_elem_of_In.
Qed.

(** The loop multiplies a column once for each time its name is listed. *)
Lemma shift_numeric_columns cols : forall df df',
  shift_numeric cols df = Ok df' ->
  (forall col, columns df !! col = None -> columns df' !! col = None) /\
  (forall col s, columns df !! col = Some s ->
     exists s', scaled (occurrences col cols) s = Ok s' /\ columns df' !! col = Some s').
Proof.
  induction cols as [|col0 rest IH]; intros df df' Hs; cbn [shift_numeric] in Hs.
  - injection Hs as <-. split; [done|]. intros col s Hc. by exists s.
  - destruct (columns df !! col0) as [s0|] eqn:E0.
    + destruct (series_mul s0 float_1_05) as [s0'|x] eqn:Em; [|discriminate].
      cbn [bind_outcome] in Hs.
      destruct (IH _ _ Hs) as (Hnone & Hsome).
      unfold set_column in Hnone, Hsome. cbn [columns] in Hnone, Hsome.
      split.
      * intros col Hc. apply Hnone.
        rewrite lookup_insert_ne; [done|congruence].
      * intros col s Hc.
        destruct (decide (col0 = col)) as [->|Hne].
        -- rewrite occurrences_cons_eq. cbn [scaled].
           assert (s = s0) as -> by congruence.
           rewrite Em. cbn [bind_outcome].
           apply Hsome. by rewrite lookup_insert_eq.
        -- rewrite occurrences_cons_ne by done.
           apply Hsome. by rewrite lookup_insert_ne.
    + destruct (IH _ _ Hs) as (Hnone & Hsome).
      split; [done|]. intros col s Hc.
      rewrite occurrences_cons_ne by congruence. by apply Hsome.
Qed.

(** It gets through when each of these multiplications does. *)
Lemma shift_numeric_returns cols : forall df,
  (forall col s, columns df !! col = Some s ->
     is_ok (scaled (occurrences col cols) s) = true) ->
  exists df', shift_numeric cols df = Ok df'.
Proof.
  induction cols as [|col0 rest IH]; intros df Hmul; cbn [shift_numeric].
  - eauto.
  - destruct (columns df !! col0) as [s0|] eqn:E0.
    + pose proof (Hmul col0 s0 E0) as Hok.
      rewrite occurrences_cons_eq in Hok. cbn [scaled] in Hok.
      destruct (series_mul s0 float_1_05) as [s0'|x]; [|discriminate].
      cbn [bind_outcome] in Hok |- *. apply IH.
      intros col s. unfold set_column. cbn [columns].
      destruct (decide (col0 = col)) as [->|Hne].
      * rewrite lookup_insert_eq. by intros [= <-].
      * rewrite lookup_insert_ne by done. intros Hc.
        specialize (Hmul col s Hc). by rewrite occurrences_cons_ne in Hmul.
    + apply IH. intros col s Hc. specialize (Hmul col s Hc).
      rewrite occurrences_cons_ne in Hmul by congruence. done.
Qed.

Lemma base_summary_lookup r c p ts :
  lookup_key "timestamp" (base_summary r c p ts) = Some (PStr ts) /\
  lookup_key "reference_samples" (base_summary r c p ts) = Some (PInt (len r)) /\
  lookup_key "current_samples" (base_summary r c p ts) = Some (PInt (len c)) /\
  lookup_key "report_path" (base_summary r c p ts) = Some (PStr (path_str p)) /\
  lookup_key "dataset_drift" (base_summary r c p ts) = None /\
  lookup_key "drift_share" (base_summary r c p ts) = None /\
  lookup_key "number_of_drifted_columns" (base_summary r c p ts) = None.
Proof. repeat split; reflexivity. Qed.

Lemma not_drift_key (k : string) :
  k <> "dataset_drift" -> k <> "drift_share" -> k <> "number_of_drifted_columns" ->
  k ∉ drift_keys.
Proof.
  intros H1 H2 H3 Hin. unfold drift_keys in Hin.
  repeat (apply elem_of_cons in Hin as [->|Hin]; [congruence|]).
  by apply elem_of_nil in Hin.
Qed.

Lemma drift_summary_base metrics r c p ts summary :
  extract_drift metrics (base_summary r c p ts) = Ok summary ->
  lookup_key "timestamp" summary = Some (PStr ts) /\
  lookup_key "reference_samples" summary = Some (PInt (len r)) /\
  lookup_key "current_samples" summary = Some (PInt (len c)) /\
  lookup_key "report_path" summary = Some (PStr (path_str p)).
Proof.
  intros Hx.
  rewrite !(extract_drift_other _ _ _ _ Hx) by (by apply not_drift_key).
  repeat split; reflexivity.
Qed.

(** C1 (amended).  Whenever [generate_drift_report] returns, its summary
    has the fields [timestamp], [reference_samples], [current_samples] and
    [report_path].  The fields [dataset_drift], [drift_share] and
    [number_of_drifted_columns] are there exactly when the report has a
    metric whose identifier contains [DatasetDrift] or whose result, as a
    string, contains [dataset_drift]: they are then read from the result of
    the last such metric, with false, 0.0 and 0 for a field the result
    lacks; with no such metric the three fields are absent. *)
Theorem drift_summary_fields cur ref out w summary w'
    (Hrun : generate_drift_report cur ref out w = (Ok summary, w')) :
  exists r c run_result metrics,
    resolve_reference ref = Ok r /\
    resolve_current r cur = Ok c /\
    drift_run r c = Ok run_result /\
    metric_results_of run_result = Ok metrics /\
    lookup_key "timestamp" summary = Some (PStr (isoformat_at (clock w))) /\
    lookup_key "reference_samples" summary = Some (PInt (len r)) /\
    lookup_key "current_samples" summary = Some (PInt (len c)) /\
    lookup_key "report_path" summary
      = Some (PStr (path_str (default drift_report_path out))) /\
    match last_drift_result metrics with
    | Some result =>
        exists res, result = PDict res /\
          lookup_key "dataset_drift" summary
            = Some (dict_get "dataset_drift" (PBool false) res) /\
          lookup_key "drift_share" summary
            = Some (dict_get "drift_share" (PFloat float_0_0) res) /\
          lookup_key "number_of_drifted_columns" summary
            = Some (dict_get "number_of_drifted_columns" (PInt 0) res)
    | None =>
        lookup_key "dataset_drift" summary = None /\
        lookup_key "drift_share" summary = None /\
        lookup_key "number_of_drifted_columns" summary = None
    end.
Proof.
  apply generate_drift_report_ok in Hrun
    as (r & c & run_result & metrics & Hr & Hc & Hd & Hm & Hx & _).
  exists r, c, run_result, metrics.
  do 4 (split; [assumption|]).
  destruct (drift_summary_base _ _ _ _ _ _ Hx) as (H1 & H2 & H3 & H4).
  do 4 (split; [assumption|]).
  apply extract_drift_fields in Hx.
  destruct (last_drift_result metrics) as [result|]; [exact Hx|].
  subst summary. repeat split; reflexivity.
Qed.

Lemma json_dump_ok v p w u w' :
  json_dump v p w = (Ok u, w') ->
  files w' = <[p := Json v]> (files w) /\ dirs w' = dirs w /\
  log w' = log w ++ [JsonDump p].
Proof.
  intros Hrun. exec_in Hrun. by injection Hrun as _ <-.
Qed.

Lemma json_dump_raise v p w x w' :
  json_dump v p w = (Raise x, w') ->
  files w' = files w /\ log w' = log w ++ [JsonDump p].
Proof.
  intros Hrun. exec_in Hrun; by injection Hrun as _ <-.
Qed.

Lemma generate_full_monitoring_report_ok cur ref w results w' :
  generate_full_monitoring_report cur ref w = (Ok results, w') ->
  exists r c drift w2 summary w3,
    resolve_reference ref = Ok r /\
    resolve_current r cur = Ok c /\
    generate_drift_report (Some c) (Some r) None (drift_step_world w) = (Ok drift, w2) /\
    generate_data_summary_report (Some c) None (summary_step_world w2)
      = (Ok summary, w3) /\
    results = [("timestamp", PStr (isoformat_at (clock w)));
               ("data_drift", PDict drift); ("data_summary", PDict summary)] /\
    files w' = <[summary_path := Json (PDict results)]> (files w3).
Proof.
  intros Hrun.
  destruct (generate_full_monitoring_report_resolved _ _ _ _ _ Hrun)
    as (r & c & Hr & Hc).
  rewrite (generate_full_monitoring_report_steps _ _ _ _ _ Hr Hc) in Hrun.
  destruct (generate_drift_report _ _ _ _) as [[drift|x] w2] eqn:Hd; [|discriminate].
  destruct (generate_data_summary_report _ _ _) as [[summary|x] w3] eqn:Hs;
    [|discriminate].
  cbn zeta in Hrun.
  destruct (json_dump _ _ _) as [[u|x] w4] eqn:Hj; [|discriminate].
  injection Hrun as <- <-.
  apply json_dump_ok in Hj as (Hf & _).
  exists r, c, drift, w2, summary, w3. by repeat split.
Qed.

(** C2.  When the orchestrator returns, [monitoring_summary.json] holds
    the returned mapping: its keys are [timestamp], [data_drift] and
    [data_summary], in this order and no other; the last two are mappings
    that are not empty; and in [data_drift], [reference_samples] is the
    number of rows of the reference data of the run and [current_samples]
    that of its current data. *)
Theorem monitoring_summary_file cur ref w results w'
    (Hrun : generate_full_monitoring_report cur ref w = (Ok results, w')) :
  files w' !! summary_path = Some (Json (PDict results)) /\
  map fst results = ["timestamp"; "data_drift"; "data_summary"] /\
  exists r c ts drift summary,
    resolve_reference ref = Ok r /\
    resolve_current r cur = Ok c /\
    lookup_key "timestamp" results = Some (PStr ts) /\
    lookup_key "data_drift" results = Some (PDict drift) /\
    lookup_key "data_summary" results = Some (PDict summary) /\
    drift <> [] /\ summary <> [] /\
    lookup_key "reference_samples" drift = Some (PInt (len r)) /\
    lookup_key "current_samples" drift = Some (PInt (len c)).
Proof.
  apply generate_full_monitoring_report_ok in Hrun
    as (r & c & drift & w2 & summary & w3 & Hr & Hc & Hd & Hs & -> & Hf).
  split; [rewrite Hf; apply lookup_insert_eq|].
  split; [reflexivity|].
  exists r, c, (isoformat_at (clock w)), drift, summary.
  do 5 (split; [done|]).
  apply generate_drift_report_ok in Hd
    as (r' & c' & run_result & metrics & [= <-] & [= <-] & _ & _ & Hx & _).
  apply drift_summary_base in Hx as (_ & H2 & H3 & _).
  apply generate_data_summary_report_ok in Hs as (d & _ & _ & _ & -> & _).
  split; [by intros ->|]. split; [done|]. by split.
Qed.

Lemma summary_path_fresh :
  summary_path <> drift_report_path /\ summary_path <> data_summary_report_path.
Proof.
  unfold summary_path, drift_report_path, data_summary_report_path, joinpath.
  split; intros E; by apply app_inv_head in E.
Qed.

(** C10.  When the orchestrator returns, its data-summary report is the
    report computed over the current data of the run, what the caller
    gave or what was synthesized: the page [data_summary_report.html] is
    the rendering of that report, and the [samples] field of
    [data_summary] is the number of rows of the current data, which, when
    the caller gave none, is the size of the sample of fraction 0.3 of the
    reference data, [round(0.3 * n)] for [n] reference rows.  A call of the
    data-summary generator with no data computes its report over the raw
    data it loads, and reports the number of rows of that. *)
Theorem data_summary_over_current cur ref w results w'
    (Hrun : generate_full_monitoring_report cur ref w = (Ok results, w')) :
  (exists r c run_result summary,
    resolve_reference ref = Ok r /\
    resolve_current r cur = Ok c /\
    summary_run c = Ok run_result /\
    files w' !! data_summary_report_path = Some (Html (html_of run_result)) /\
    lookup_key "data_summary" results = Some (PDict summary) /\
    lookup_key "samples" summary = Some (PInt (len c)) /\
    (cur = None -> nrows c = sample_size float_0_3 (nrows r))) /\
  (forall out w0 summary w0',
    generate_data_summary_report None out w0 = (Ok summary, w0') ->
    exists raw run_result,
      resolve_reference None = Ok raw /\
      summary_run raw = Ok run_result /\
      files w0' !! default data_summary_report_path out
        = Some (Html (html_of run_result)) /\
      lookup_key "samples" summary = Some (PInt (len raw))).
Proof.
  split.
  - apply generate_full_monitoring_report_ok in Hrun
      as (r & c & drift & w2 & summary & w3 & Hr & Hc & Hd & Hs & -> & Hf).
    apply generate_data_summary_report_ok in Hs
      as (d & run_result & [= <-] & Hsum & -> & Hf3 & _).
    exists r, c, run_result. eexists.
    do 3 (split; [done|]).
    split.
    { rewrite Hf, lookup_insert_ne by apply summary_path_fresh.
      rewrite Hf3. cbn [default from_option id]. apply lookup_insert_eq. }
    split; [reflexivity|]. split; [reflexivity|].
    intros ->. unfold resolve_current, simulate_current, bind_outcome in Hc.
    destruct load_config as [cfg|]; [|discriminate].
    rewrite (shift_numeric_nrows _ _ _ Hc). apply sample_nrows.
  - intros out w0 summary w0' Hs.
    apply generate_data_summary_report_ok in Hs
      as (d & run_result & Hr & Hsum & -> & Hf & _).
    exists d, run_result. do 2 (split; [done|]).
    split; [|reflexivity]. rewrite Hf. apply lookup_insert_eq.
Qed.

Lemma prefixes_self (p : path) : p <> [] -> p ∈ prefixes p.
Proof.
  intros Hp. unfold prefixes. apply list_elem_of_In, in_map_iff.
  exists (length p). split; [apply firstn_all|].
  apply in_seq. destruct p; [done|]. cbn [length]. lia.
Qed.

Lemma mkdir_made (p q : path) (w : world) :
  q ∈ prefixes p ->
  is_dir (World (list_to_set (prefixes p) ∪ dirs w) (files w) (clock w) (log w)) q = true.
Proof.
  intros Hq. unfold is_dir. cbn [dirs]. apply bool_decide_eq_true. right.
  apply elem_of_union_l, elem_of_list_to_set, Hq.
Qed.

Lemma is_dir_dirs (w w' : world) (q : path) :
  dirs w' = dirs w -> is_dir w' q = is_dir w q.
Proof. unfold is_dir. by intros ->. Qed.

Lemma reports_dir_not_root : reports_dir <> [].
Proof. unfold reports_dir, joinpath. by intros [_ ?]%app_eq_nil. Qed.

Lemma no_mkdir_in (evs : list event) (q : path) :
  existsb is_mkdir evs = false -> Mkdir q ∉ evs.
Proof.
  intros Hno Hin. apply list_elem_of_In in Hin.
  assert (existsb is_mkdir evs = true) as Hyes
    by (apply existsb_exists; by exists (Mkdir q)).
  congruence.
Qed.

(** C9 (amended).  A report function called without an output path
    creates [reports/] and its ancestors, then writes its page there.
    Called with an output path it creates no directory, whatever the
    outcome: it returns only if the directory of that path is there
    already. *)
Theorem report_directories cur ref data w :
  (forall summary w',
     generate_drift_report cur ref None w = (Ok summary, w') ->
     (forall q, q ∈ prefixes reports_dir -> is_dir w' q = true) /\
     is_dir w' reports_dir = true /\
     is_file w' drift_report_path = true /\
     added w w' = [Enter "generate_drift_report"; Mkdir reports_dir;
                   SaveHtml drift_report_path;
                   Print ("Drift report saved to: " +:+ path_str drift_report_path)]) /\
  (forall summary w',
     generate_data_summary_report data None w = (Ok summary, w') ->
     (forall q, q ∈ prefixes reports_dir -> is_dir w' q = true) /\
     is_dir w' reports_dir = true /\
     is_file w' data_summary_report_path = true /\
     added w w' = [Enter "generate_data_summary_report"; Mkdir reports_dir;
                   SaveHtml data_summary_report_path;
                   Print ("Data summary report saved to: "
                          +:+ path_str data_summary_report_path)]) /\
  (forall p,
     let res := generate_drift_report cur ref (Some p) w in
     dirs res.2 = dirs w /\
     (forall q, Mkdir q ∉ added w res.2) /\
     (is_ok res.1 = true -> is_dir w (parent p) = true)) /\
  (forall p,
     let res := generate_data_summary_report data (Some p) w in
     dirs res.2 = dirs w /\
     (forall q, Mkdir q ∉ added w res.2) /\
     (is_ok res.1 = true -> is_dir w (parent p) = true)).
Proof.
  split_and!.
  - intros summary w' Hrun.
    apply generate_drift_report_ok in Hrun
      as (r & c & run_result & metrics & _ & _ & _ & _ & _ & Hf & _ & Hd & Hl).
    cbn [default from_option id] in Hf, Hl.
    assert (Hmade : forall q, q ∈ prefixes reports_dir -> is_dir w' q = true).
    { intros q Hq. rewrite <- (mkdir_made reports_dir q w Hq).
      by apply is_dir_dirs. }
    split_and!; [done|apply Hmade, prefixes_self, reports_dir_not_root| |].
    + unfold is_file. rewrite Hf, lookup_insert_eq. by apply bool_decide_eq_true.
    + by apply added_events.
  - intros summary w' Hrun.
    apply generate_data_summary_report_ok in Hrun
      as (d & run_result & _ & _ & _ & Hf & _ & Hd & Hl).
    cbn [default from_option id] in Hf, Hl.
    assert (Hmade : forall q, q ∈ prefixes reports_dir -> is_dir w' q = true).
    { intros q Hq. rewrite <- (mkdir_made reports_dir q w Hq).
      by apply is_dir_dirs. }
    split_and!; [done|apply Hmade, prefixes_self, reports_dir_not_root| |].
    + unfold is_file. rewrite Hf, lookup_insert_eq. by apply bool_decide_eq_true.
    + by apply added_events.
  - intros p res.
    destruct (generate_drift_report_effects cur ref (Some p) w)
      as (evs & Hl & _ & _ & Hno).
    destruct (Hno ltac:(eauto)) as [Hno' Hd].
    fold res in Hl, Hd. split_and!; [done| |].
    + intros q. rewrite (added_events _ _ _ Hl).
      intros [[=]|Hin]%elem_of_cons. by apply (no_mkdir_in evs q).
    + destruct res as [[summary|x] w'] eqn:Hrun; [|discriminate]. intros _.
      apply generate_drift_report_ok in Hrun.
      by destruct Hrun as (? & ? & ? & ? & _ & _ & _ & _ & _ & _ & _ & _ & ? & _).
  - intros p res.
    destruct (generate_data_summary_report_effects data (Some p) w)
      as (evs & Hl & _ & _ & Hno).
    destruct (Hno ltac:(eauto)) as [Hno' Hd].
    fold res in Hl, Hd. split_and!; [done| |].
    + intros q. rewrite (added_events _ _ _ Hl).
      intros [[=]|Hin]%elem_of_cons. by apply (no_mkdir_in evs q).
    + destruct res as [[summary|x] w'] eqn:Hrun; [|discriminate]. intros _.
      apply generate_data_summary_report_ok in Hrun.
      by destruct Hrun as (? & ? & _ & _ & _ & _ & _ & _ & ? & _).
Qed.

Lemma report_io_only (evs : list event) (ev : event) :
  forallb is_report_io evs = true -> ev ∈ evs -> is_report_io ev = true.
Proof.
  intros Hall Hin. rewrite forallb_forall in Hall.
  by apply Hall, list_elem_of_In.
Qed.

Ltac not_listed Hin :=
  repeat (apply elem_of_cons in Hin as [Hin|Hin]; [discriminate Hin|]);
  try (by apply elem_of_nil in Hin).

(** C8.  In the orchestrator an exception of the drift step or of the
    summary step is the outcome of the whole call.  When the drift step
    raises, the summary step is not entered and no JSON is dumped, so
    [monitoring_summary.json] is as it was before the call; when the
    summary step raises, no JSON is dumped either. *)
Theorem report_step_failure cur ref w r c
    (Hr : resolve_reference ref = Ok r)
    (Hc : resolve_current r cur = Ok c) :
  (forall x w2,
     generate_drift_report (Some c) (Some r) None (drift_step_world w) = (Raise x, w2) ->
     generate_full_monitoring_report cur ref w = (Raise x, w2) /\
     (Enter "generate_data_summary_report" ∉ added w w2) /\
     (forall p, JsonDump p ∉ added w w2) /\
     files w2 !! summary_path = files w !! summary_path) /\
  (forall drift w2 x w3,
     generate_drift_report (Some c) (Some r) None (drift_step_world w) = (Ok drift, w2) ->
     generate_data_summary_report (Some c) None (summary_step_world w2) = (Raise x, w3) ->
     generate_full_monitoring_report cur ref w = (Raise x, w3) /\
     (forall p, JsonDump p ∉ added w w3) /\
     files w3 !! summary_path = files w !! summary_path).
Proof.
  destruct summary_path_fresh as [Hp1 Hp2].
  split.
  - intros x w2 Hd.
    rewrite (generate_full_monitoring_report_steps _ _ _ _ _ Hr Hc), Hd.
    split; [reflexivity|].
    destruct (generate_drift_report_effects (Some c) (Some r) None (drift_step_world w))
      as (evs & Hl & Hio & Hf & _).
    rewrite Hd in Hl, Hf. cbn [snd default from_option id] in Hl, Hf.
    unfold drift_step_world in Hl at 1. cbn [log] in Hl.
    rewrite <- app_assoc in Hl. apply added_events in Hl. rewrite Hl.
    split_and!.
    + intros Hin. cbn [app] in Hin. not_listed Hin.
      by apply (report_io_only _ _ Hio) in Hin.
    + intros p Hin. cbn [app] in Hin. not_listed Hin.
      by apply (report_io_only _ _ Hio) in Hin.
    + exact (Hf _ Hp1).
  - intros drift w2 x w3 Hd Hs.
    rewrite (generate_full_monitoring_report_steps _ _ _ _ _ Hr Hc), Hd, Hs.
    split; [reflexivity|].
    destruct (generate_drift_report_effects (Some c) (Some r) None (drift_step_world w))
      as (evs & Hl & Hio & Hf & _).
    rewrite Hd in Hl, Hf. cbn [snd default from_option id] in Hl, Hf.
    destruct (generate_data_summary_report_effects (Some c) None (summary_step_world w2))
      as (evs' & Hl' & Hio' & Hf' & _).
    rewrite Hs in Hl', Hf'. cbn [snd default from_option id] in Hl', Hf'.
    unfold summary_step_world in Hl' at 1. cbn [log] in Hl'.
    rewrite Hl in Hl'. unfold drift_step_world in Hl' at 1. cbn [log] in Hl'.
    rewrite <- !app_assoc in Hl'. apply added_events in Hl'. rewrite Hl'.
    split.
    + intros p Hin. cbn [app] in Hin. not_listed Hin.
      apply elem_of_app in Hin as [Hin|Hin];
        [by apply (report_io_only _ _ Hio) in Hin|].
      not_listed Hin.
      by apply (report_io_only _ _ Hio') in Hin.
    + exact (eq_trans (Hf' _ Hp2) (Hf _ Hp1)).
Qed.

(** C3 (amended).  Both functions that take no current data synthesize
    it from the sample of fraction 0.3 and seed 42 of the reference data,
    of [round(0.3 * n)] rows for [n] reference rows, by multiplying the
    columns named in the configured numeric list by 1.05, once for each
    time the name is listed.  The synthesis returns exactly when each of
    these multiplications can be done.  The synthesized frame then has the
    rows of the sample and no column the sample has not; a column of the
    sample whose name is not listed is unchanged, one whose name is listed
    once is multiplied by 1.05 once, and in general one listed [n] times
    is multiplied [n] times.  A call without current data runs, in every
    world, as the call that is given this frame, so every run synthesizes
    the same one. *)
Theorem synthesized_current cfg r
    (Hcfg : load_config = Ok cfg) :
  let sampled := sample float_0_3 42 r in
  nrows sampled = sample_size float_0_3 (nrows r) /\
  ((exists c, simulate_current r = Ok c) <->
   (forall col s, columns sampled !! col = Some s ->
      is_ok (scaled (occurrences col (numeric cfg)) s) = true)) /\
  (forall c, simulate_current r = Ok c ->
     nrows c = nrows sampled /\
     (forall col, columns sampled !! col = None -> columns c !! col = None) /\
     (forall col s, columns sampled !! col = Some s ->
        exists s', scaled (occurrences col (numeric cfg)) s = Ok s' /\
                   columns c !! col = Some s') /\
     (forall col s, columns sampled !! col = Some s ->
        col ∉ numeric cfg -> columns c !! col = Some s) /\
     (forall col s, columns sampled !! col = Some s ->
        occurrences col (numeric cfg) = 1 ->
        exists s', series_mul s float_1_05 = Ok s' /\ columns c !! col = Some s') /\
     (forall ref out w, resolve_reference ref = Ok r ->
        generate_drift_report None ref out w
        = generate_drift_report (Some c) ref out w) /\
     (forall ref w, resolve_reference ref = Ok r ->
        generate_full_monitoring_report None ref w
        = generate_full_monitoring_report (Some c) ref w)).
Proof.
  intros sampled. split; [apply sample_nrows|].
  assert (Hsim : simulate_current r = shift_numeric (numeric cfg) sampled).
  { unfold simulate_current. by rewrite Hcfg. }
  rewrite Hsim. split; [split|].
  - intros [c Hs] col s Hcol.
    destruct (shift_numeric_columns _ _ _ Hs) as [_ Hsome].
    destruct (Hsome col s Hcol) as (s' & -> & _). reflexivity.
  - apply shift_numeric_returns.
  - intros c Hs.
    split; [by apply shift_numeric_nrows in Hs|].
    destruct (shift_numeric_columns _ _ _ Hs) as [Hnone Hsome].
    do 2 (split; [assumption|]).
    split; [|split; [|split]].
    + intros col s Hcol Hnot.
      destruct (Hsome col s Hcol) as (s' & Hsc & Hc).
      rewrite occurrences_unlisted in Hsc by done.
      cbn [scaled] in Hsc. congruence.
    + intros col s Hcol Hone.
      destruct (Hsome col s Hcol) as (s' & Hsc & Hc).
      rewrite Hone in Hsc. cbn [scaled] in Hsc.
      destruct (series_mul s float_1_05) as [s1|x]; [|discriminate].
      cbn [bind_outcome scaled] in Hsc. exists s1. split; [reflexivity|congruence].
    + intros ref out w Hr. subst sampled.
      unfold generate_drift_report, load_reference_data, bind, lift, ret, emit.
      cbn beta iota zeta delta [dirs files clock log].
      unfold resolve_reference in Hr. rewrite Hcfg in Hr |- *.
      cbn [bind_outcome] in Hr.
      destruct ref as [r0|]; [injection Hr as ->; by rewrite Hs|].
      by rewrite Hr, Hs.
    + intros ref w Hr.
      rewrite !(generate_full_monitoring_report_steps _ _ _ r c); try done.
      unfold resolve_current. by rewrite Hsim.
Qed.

End Facts.

(** ** Runs of the small installation *)

Lemma run_pair {A} (res : outcome A * world) (a : A) :
  res.1 = Ok a -> res = (Ok a, res.2).
Proof. destruct res as [o w]. cbn. by intros ->. Defined.

Lemma drift_fields_absent :
  (example_drift_report ["age"] (Ok example_report_of_counts)
     None None None empty_world).1
  = Ok [("timestamp", PStr "2025-01-01T00:00:00");
        ("reference_samples", PInt 10);
        ("current_samples", PInt 3);
        ("report_path", PStr "project/reports/drift_report.html")].
Proof. vm_compute. reflexivity. Qed.

Lemma drift_summary_fields_example :
  exists summary,
    (example_drift_report ["age"] (Ok example_report) None None None empty_world).1
      = Ok summary /\
    lookup_key "dataset_drift" summary = Some (PBool true) /\
    lookup_key "drift_share" summary = Some (PFloat float_0_0) /\
    lookup_key "number_of_drifted_columns" summary = Some (PInt 1).
Proof.
  eexists.
  match goal with |- ?A /\ _ => assert (Hrun : A) by (vm_compute; reflexivity) end.
  split; [exact Hrun|].
  apply run_pair in Hrun. unfold example_drift_report in Hrun.
  destruct (drift_summary_fields _ _ _ _ _ _ Hrun)
    as (r & c & run_result & metrics & _ & _ & Hd & Hm & _ & _ & _ & _ & Hlast).
  clear Hrun.
  vm_compute in Hd. injection Hd as <-.
  vm_compute in Hm. injection Hm as <-.
  destruct Hlast as (res' & Hres & H5 & H6 & H7); [].
  vm_compute in Hres. injection Hres as <-.
  repeat split; assumption.
Defined.
Lemma monitoring_summary_file_example :
  exists results,
    (example_full_monitoring_report ["age"] (Ok example_report) None None empty_world).1
      = Ok results /\
    files (example_full_monitoring_report ["age"] (Ok example_report)
             None None empty_world).2
      !! ["project"; "reports"; "monitoring_summary.json"]
      = Some (Json (PDict results)) /\
    map fst results = ["timestamp"; "data_drift"; "data_summary"].
Proof.
  eexists.
  match goal with |- ?A /\ _ => assert (Hrun : A) by (vm_compute; reflexivity) end.
  split; [exact Hrun|].
  apply run_pair in Hrun. unfold example_full_monitoring_report in Hrun |- *.
  destruct (monitoring_summary_file _ _ _ _ _ Hrun) as (Hf & Hk & _).
  split; [exact Hf|exact Hk].
Defined.

Lemma data_summary_over_current_example :
  exists results summary,
    (example_full_monitoring_report ["age"] (Ok example_report) None None empty_world).1
      = Ok results /\
    lookup_key "data_summary" results = Some (PDict summary) /\
    lookup_key "samples" summary = Some (PInt 3) /\
    files (example_full_monitoring_report ["age"] (Ok example_report)
             None None empty_world).2
      !! ["project"; "reports"; "data_summary_report.html"]
      = Some (Html "<html></html>") /\
    len example_frame = 10%Z.
Proof.
  eexists. eexists.
  match goal with |- ?A /\ _ => assert (Hrun : A) by (vm_compute; reflexivity) end.
  split; [exact Hrun|].
  apply run_pair in Hrun. unfold example_full_monitoring_report in Hrun |- *.
  destruct (data_summary_over_current _ _ _ _ _ Hrun)
    as ((r & c & run_result & summary & Hr & Hc & _ & Hpage & Hs & Hn & _) & _).
  clear Hrun.
  vm_compute in Hr. injection Hr as <-.
  vm_compute in Hc. injection Hc as <-.
  vm_compute in Hs. injection Hs as <-.
  split; [reflexivity|]. split; [exact Hn|]. split; [exact Hpage|reflexivity].
Defined.

Lemma numeric_listed_twice :
  @series_mul example_pandas (replicate 3 (PFloat float_100)) float_1_05
    = Ok (replicate 3 (PFloat float_105)) /\
  columns (example_sample float_0_3 42 example_frame) !! "age"
    = Some (replicate 3 (PFloat float_100)) /\
  exists c,
    @shift_numeric example_pandas ["age"; "age"] (example_sample float_0_3 42 example_frame) = Ok c /\
    @simulate_current (example_project ["age"; "age"]) example_pandas example_frame = Ok c /\
    columns c !! "age" = Some (replicate 3 (PFloat float_110_25)).
Proof.
  split; [vm_compute; reflexivity|]. split; [vm_compute; reflexivity|].
  eexists. split; [vm_compute; reflexivity|].
  split; vm_compute; reflexivity.
Qed.

Lemma synthesized_current_example :
  exists c,
    @simulate_current (example_project ["age"]) example_pandas example_frame = Ok c /\
    nrows c = 3 /\
    columns c !! "age" = Some (replicate 3 (PFloat float_105)) /\
    columns c !! "htn" = Some (replicate 3 (PStr "no")).
Proof.
  destruct (@synthesized_current (example_project ["age"]) example_pandas
              (example_evidently (Ok example_report)) example_builtins
              (example_config ["age"]) example_frame eq_refl)
    as (Hrows & _ & Hc).
  eexists.
  match goal with |- ?A /\ _ => assert (Hsim : A) by (vm_compute; reflexivity) end.
  split; [exact Hsim|].
  destruct (Hc _ Hsim) as (Hn & _ & _ & Hkeep & Hshift & _).
  split; [exact (eq_trans Hn Hrows)|]. split.
  - destruct (Hshift "age" (replicate 3 (PFloat float_100)))
      as (s' & Hm & Hage); [vm_compute; reflexivity|reflexivity|].
    vm_compute in Hm. injection Hm as <-. exact Hage.
  - apply Hkeep; [vm_compute; reflexivity|].
    intros Hin%list_elem_of_singleton. discriminate Hin.
Defined.

Lemma report_step_failure_example :
  let x := Exn "ValueError" "empty dataset" in
  (example_full_monitoring_report ["age"] (Raise x) None None empty_world).1 = Raise x /\
  files (example_full_monitoring_report ["age"] (Raise x) None None empty_world).2
    !! ["project"; "reports"; "monitoring_summary.json"] = None.
Proof.
  intros x.
  destruct (@report_step_failure (example_project ["age"]) example_pandas
              (example_evidently (Raise x)) example_builtins
              None None empty_world example_frame example_current)
    as [Hdrift _]; [vm_compute; reflexivity|vm_compute; reflexivity|].
  destruct (Hdrift x
              (example_drift_report ["age"] (Raise x) (Some example_current)
                 (Some example_frame) None (drift_step_world empty_world)).2)
    as (Hrun & _ & _ & Hf); [vm_compute; reflexivity|].
  unfold example_full_monitoring_report.
  rewrite Hrun. split; [reflexivity|exact Hf].
Defined.

Lemma explicit_path_not_created :
  let res := example_drift_report ["age"] (Ok example_report)
               None None (Some ["out"; "drift.html"]) empty_world in
  res.1 = Raise (FileNotFoundError "out/drift.html") /\
  is_dir res.2 ["out"] = false /\
  log res.2 = [Enter "generate_drift_report"; SaveHtml ["out"; "drift.html"]].
Proof. vm_compute. done. Qed.

Lemma report_directories_example :
  let res := example_drift_report ["age"] (Ok example_report)
               None None None empty_world in
  is_ok res.1 = true /\
  is_dir res.2 ["project"; "reports"] = true /\
  is_dir res.2 ["project"] = true /\
  is_file res.2 ["project"; "reports"; "drift_report.html"] = true.
Proof.
  intros res.
  assert (Hok : exists summary, res.1 = Ok summary) by (eexists; vm_compute; reflexivity).
  destruct Hok as [summary Hrun].
  split; [by rewrite Hrun|].
  apply run_pair in Hrun. unfold res, example_drift_report in Hrun.
  destruct (@report_directories (example_project ["age"]) example_pandas
              (example_evidently (Ok example_report)) example_builtins
              None None None empty_world) as (Hdefault & _).
  destruct (Hdefault _ _ Hrun) as (Hmade & Hdir & Hfile & _).
  split; [exact Hdir|]. split; [|exact Hfile].
  apply Hmade. vm_compute. apply list_elem_of_In. left. reflexivity.
Defined.

End MonitoringSpec.

(** * Runs of the pipeline, step by step *)

Module PipelineRuns.
Import Pipeline.

Section Facts.

Context `{Delegates}.

Ltac destruct_innermost :=
  match goal with
  | |- context [match ?x with _ => _ end] =>
      lazymatch x with
      | context [match _ with _ => _ end] => fail
      | is_ok _ => fail
      | stops _ => fail
      | negb _ => fail
      | _ => destruct x eqn:?
      end
  end.

Ltac run_flow :=
  unfold kidney_ml_pipeline, training_pipeline,
    preprocess_task, train_task, evaluate_task, task,
    preprocess_options, train_options, evaluate_options,
    preprocess_body, train_body, evaluate_body;
  cbn [attempt retries retry_delay_seconds];
  unfold bind, ret, logger_info, emit, call;
  cbn [ext trace fst snd is_ok stops negb];
  repeat (destruct_innermost; cbn [ext trace fst snd is_ok stops negb]).

Ltac added_events :=
  unfold added; cbn [ext trace fst snd];
  rewrite <- ?app_assoc; rewrite ?drop_app_length;
  cbn [app calls waits logs last head is_ok].

(** The preprocess task makes up to three attempts, each on the external
    state the one before left.  Its outcome and the state it leaves are
    those of the first attempt that returns or raises something that is
    not an [Exception], or else of the third; it waits 10 seconds before
    each further attempt; and when it returns, its last log line gives the
    sizes of the training and test sets it returns. *)
Theorem preprocess_task_attempts (s : state) :
  let a1 := preprocess (ext s) in
  let a2 := preprocess a1.2 in
  let a3 := preprocess a2.2 in
  let r := preprocess_task s in
  (r.1, ext r.2) = (if stops a1.1 then a1 else if stops a2.1 then a2 else a3) /\
  calls (added s r.2) = replicate (if stops a1.1 then 1 else if stops a2.1 then 2 else 3)
                                  Preprocess /\
  waits (added s r.2) = replicate (if stops a1.1 then 0 else if stops a2.1 then 1 else 2) 10 /\
  (forall X_train X_test y_train y_test,
     r.1 = Ok (X_train, X_test, y_train, y_test) ->
     last (logs (added s r.2))
     = Some ("Preprocessing complete. Train samples: " +:+ show_nat (shape0 X_train)
             +:+ ", Test samples: " +:+ show_nat (shape0 X_test))).
Proof.
  cbv zeta. run_flow.
  all: added_events.
  all: repeat split; try reflexivity.
  all: try (intros ? ? ? ? [= <- <- <- <-]; reflexivity).
  all: try (intros ? ? ? ? [=]).
Qed.

Ltac listed := apply list_elem_of_In; cbn; tauto.
Ltac unlisted := rewrite list_elem_of_In; cbn; intuition discriminate.

(** When the flow raises, it stopped at the step that failed: the
    delegate called last is an enabled one; it was attempted at least once
    and at most as often as its task allows (retries + 1), and exactly that
    often when what the flow raises is an [Exception]; no delegate of a
    later step was called, and the closing log line was not written. *)
Theorem flow_stops_at_failure (p t e : bool) (s : state) (x : exn)
    (Hraise : (kidney_ml_pipeline p t e s).1 = Raise x) :
  let cs := calls (added s (kidney_ml_pipeline p t e s).2) in
  exists d,
    d ∈ enabled p t e /\
    last cs = Some d /\
    1 <= call_count_in d cs <= S (retries (options_of d)) /\
    (is_Exception x = true -> call_count_in d cs = S (retries (options_of d))) /\
    (forall d', step_rank d < step_rank d' -> d' ∉ cs) /\
    "Pipeline execution complete!" ∉ logs (added s (kidney_ml_pipeline p t e s).2).
Proof.
  cbv zeta. revert Hraise. destruct p, t, e.
  all: run_flow; added_events; intros Hraise; try discriminate Hraise.
  all: injection Hraise as <-.
  all: first [exists Preprocess; split; [listed|]; split; [reflexivity|];
                split; [vm_compute; lia|];
                split; [intros Hx; first [reflexivity|congruence]|];
                split; [|unlisted];
                intros [] Hlt; cbn in Hlt; try lia; unlisted
             |exists Train; split; [listed|]; split; [reflexivity|];
                split; [vm_compute; lia|];
                split; [intros Hx; first [reflexivity|congruence]|];
                split; [|unlisted];
                intros [] Hlt; cbn in Hlt; try lia; unlisted
             |exists Evaluate; split; [listed|]; split; [reflexivity|];
                split; [vm_compute; lia|];
                split; [intros Hx; first [reflexivity|congruence]|];
                split; [|unlisted];
                intros [] Hlt; cbn in Hlt; try lia; unlisted].
Qed.

(** The training-only flow never preprocesses.  It calls [train] once,
    and a second time when the first call raises an [Exception]; it calls
    [evaluate], once and on the state [train] left, exactly when one of
    these calls returned; it returns exactly when [evaluate] then returns,
    and only then writes its closing log line. *)
Theorem training_pipeline_steps (s : state) :
  let t1 := train (ext s) in
  let t2 := train t1.2 in
  let again := negb (stops t1.1) in
  let trained := is_ok t1.1 || (again && is_ok t2.1) in
  let after_train := if again then t2.2 else t1.2 in
  let r := training_pipeline s in
  calls (added s r.2)
    = (if again then [Train; Train] else [Train])
      ++ (if trained then [Evaluate] else []) /\
  is_ok r.1 = trained && is_ok (evaluate after_train).1 /\
  ext r.2 = (if trained then (evaluate after_train).2 else after_train) /\
  (is_ok r.1 = true <->
   last (logs (added s r.2)) = Some "Training pipeline complete!").
Proof.
  cbv zeta. run_flow.
  all: added_events.
  all: repeat split; try reflexivity; try discriminate.
Qed.

(** The training-only flow calls the delegates, waits and leaves the
    external state exactly as the full flow with preprocessing switched
    off, and raises what it raises; the two differ in their log lines and
    in what they return. *)
Theorem training_pipeline_as_flow (s : state) :
  let r := training_pipeline s in
  let f := kidney_ml_pipeline false true true s in
  ext r.2 = ext f.2 /\
  calls (added s r.2) = calls (added s f.2) /\
  waits (added s r.2) = waits (added s f.2) /\
  (forall x, r.1 = Raise x <-> f.1 = Raise x) /\
  (r.1 = Ok tt <-> f.1 = Ok (status_of false true true)).
Proof.
  cbv zeta. run_flow.
  all: added_events.
  all: repeat split; try reflexivity; try discriminate;
    try (intros [= ->]; reflexivity).
Qed.

(** Every run of the flow starts its log with the opening line, and it
    ends it with the closing line exactly when it returns. *)
Theorem flow_log_bracket (p t e : bool) (s : state) :
  let r := kidney_ml_pipeline p t e s in
  head (logs (added s r.2)) = Some "Starting Kidney MLOps Pipeline..." /\
  (is_ok r.1 = true <->
   last (logs (added s r.2)) = Some "Pipeline execution complete!").
Proof.
  cbv zeta. destruct p, t, e.
  all: run_flow; added_events.
  all: repeat split; try reflexivity; try discriminate.
Qed.

(** The waits of a run of the flow: at most two of 10 seconds, for the
    retries of preprocessing, followed by at most one of 0 seconds, for
    the retry of training; none for a step that is switched off. *)
Theorem flow_retry_waits (p t e : bool) (s : state) :
  exists a b,
    waits (added s (kidney_ml_pipeline p t e s).2) = replicate a 10 ++ replicate b 0 /\
    a <= (if p then 2 else 0) /\ b <= (if t then 1 else 0).
Proof.
  destruct p, t, e.
  all: run_flow; added_events.
  all: first [exists 0, 0; split; [reflexivity|lia]
             |exists 1, 0; split; [reflexivity|lia]
             |exists 2, 0; split; [reflexivity|lia]
             |exists 0, 1; split; [reflexivity|lia]
             |exists 1, 1; split; [reflexivity|lia]
             |exists 2, 1; split; [reflexivity|lia]].
Qed.

End Facts.
(** ** A run with a training that fails twice *)

Lemma flow_stops_at_failure_example :
  let s0 := @State (flaky_train 2) 0 [] in
  let r := @kidney_ml_pipeline (flaky_train 2) true true true s0 in
  r.1 = Raise (Exn "RuntimeError" "training failed") /\
  last (calls (added s0 r.2)) = Some Train /\
  Evaluate ∉ calls (added s0 r.2).
Proof.
  intros s0 r.
  assert (Hraise : r.1 = Raise (Exn "RuntimeError" "training failed")) by reflexivity.
  split; [exact Hraise|].
  destruct (@flow_stops_at_failure (flaky_train 2) true true true s0 _ Hraise)
    as (d & _ & Hlast & _ & _ & Hlater & _).
  assert (Hd : d = Train) by (vm_compute in Hlast; congruence).
  subst d. split; [exact Hlast|]. apply Hlater. cbn. lia.
Defined.

End PipelineRuns.

(** * Runs of the report functions, case by case *)

Module MonitoringRuns.
Import Monitoring MonitoringSpec.

Section Facts.

Context {project : Project} {pandas : Pandas} {evidently : Evidently}
        {builtins : Builtins}.

Ltac unfold_run_in H :=
  unfold main, generate_full_monitoring_report, generate_drift_report,
    generate_data_summary_report,
    load_reference_data, get_data_definition,
    save_html, json_dump, mkdir_parents_exist_ok, write_file,
    now_isoformat, print, emit, bind, lift, ret in H;
  cbn beta iota zeta delta [dirs files clock log] in H.

Ltac exec_all_in H :=
  unfold_run_in H;
  repeat (
    match type of H with
    | context [match ?x with _ => _ end] =>
        lazymatch x with
        | context [match _ with _ => _ end] => fail
        | _ => destruct x eqn:?
        end
    end;
    cbn beta iota zeta delta [dirs files clock log] in H).

Ltac use_eqs_in H :=
  repeat match goal with
         | E : ?x = Ok _ |- _ =>
             tryif constr_eq E H then fail else
             lazymatch type of H with
             | context [x] => rewrite E in H; cbn beta iota in H
             end
         | E : ?x = Raise _ |- _ =>
             tryif constr_eq E H then fail else
             lazymatch type of H with
             | context [x] => rewrite E in H; cbn beta iota in H
             end
         end.

Lemma parent_join (p : path) (x : string) : parent (p // [x]) = p.
Proof.
  unfold parent, joinpath. rewrite length_app. cbn [length].
  replace (length p + 1 - 1) with (length p) by lia.
  by rewrite take_app_length.
Qed.

Lemma child_not_root (p : path) (x : string) : p // [x] <> [].
Proof. unfold joinpath. by destruct p. Qed.

Lemma prefixes_length (p q : path) : q ∈ prefixes p -> length q <= length p.
Proof.
  intros Hq. apply list_elem_of_In, in_map_iff in Hq as (n & <- & _).
  rewrite length_take. lia.
Qed.

Lemma child_not_prefix (p : path) (x : string) : p // [x] ∉ prefixes p.
Proof.
  intros Hq%prefixes_length. unfold joinpath in Hq.
  rewrite length_app in Hq. cbn in Hq. lia.
Qed.

Lemma child_not_made (p : path) (x : string) (ds : gset path) :
  p // [x] ∉ ds -> p // [x] ∉ list_to_set (prefixes p) ∪ ds.
Proof.
  intros Hd [Hin|Hin]%elem_of_union; [|done].
  apply elem_of_list_to_set in Hin. by apply child_not_prefix in Hin.
Qed.

Lemma made_is_dir (p : path) (ds : gset path) fs ck lg :
  p <> [] -> is_dir (World (list_to_set (prefixes p) ∪ ds) fs ck lg) p = true.
Proof.
  intros Hp. unfold is_dir. cbn [dirs]. apply bool_decide_eq_true. right.
  apply elem_of_union_l, elem_of_list_to_set, prefixes_self, Hp.
Qed.

Lemma is_dir_only_dirs ds fs ck lg fs' ck' lg' (q : path) :
  is_dir (World ds fs ck lg) q = is_dir (World ds fs' ck' lg') q.
Proof. reflexivity. Qed.

Lemma is_file_only_files ds fs ck lg ds' ck' lg' (q : path) :
  is_file (World ds fs ck lg) q = is_file (World ds' fs ck' lg') q.
Proof. reflexivity. Qed.

Ltac subst_options :=
  repeat match goal with
         | E : ?v = Some _ |- _ => is_var v; subst v
         | E : ?v = None |- _ => is_var v; subst v
         end.

Ltac norm_fs :=
  unfold can_write, can_open, is_dir, is_file, drift_report_path,
    data_summary_report_path, summary_path, reports_dir in *;
  cbn [dirs files] in *;
  rewrite ?parent_join in *.

Ltac split_andb :=
  repeat match goal with
         | Hb : _ && _ = true |- _ => apply andb_true_iff in Hb as [? ?]
         end;
  repeat match goal with Hb : negb _ = true |- _ => apply negb_true_iff in Hb end;
  repeat match goal with Hb : negb _ = false |- _ => apply negb_false_iff in Hb end.

Ltac fs_contradiction Hw :=
  exfalso; split_andb;
  first
    [ congruence
    | match goal with
      | Hb : bool_decide (_ // [_] = []) = true |- _ =>
          apply bool_decide_eq_true in Hb; by apply child_not_root in Hb
      end
    | match goal with
      | Hb : bool_decide (_ = [] \/ _ ∈ _ ∪ _) = false |- _ =>
          apply bool_decide_eq_false in Hb; apply Hb; right;
          apply elem_of_union_l, elem_of_list_to_set, prefixes_self,
                reports_dir_not_root
      end
    | match goal with
      | Hb : bool_decide (_ ∈ _ ∪ _) = true, Hd : bool_decide (_ ∈ _) = false |- _ =>
          apply bool_decide_eq_true in Hb;
          apply bool_decide_eq_false in Hd;
          by apply child_not_made in Hb
      end ].

Ltac same_run :=
  unfold metric_results_of, bind_outcome, report_written, base_summary;
  cbn [default from_option id];
  repeat match goal with
         | E : ?x = Ok _ |- context [?x] => rewrite E
         | E : ?x = Raise _ |- context [?x] => rewrite E
         end;
  cbn [app]; rewrite <- ?app_assoc; reflexivity.

Lemma generate_drift_report_run cur ref out w r c run_result
    (Hin : drift_inputs cur ref = Ok (r, c, run_result))
    (Hw : can_write w drift_report_path out = true) :
  generate_drift_report cur ref out w =
  (let? metrics := metric_results_of run_result in
   extract_drift metrics
     (base_summary r c (default drift_report_path out) (isoformat_at (clock w))),
   report_written "generate_drift_report" "Drift report saved to: "
     drift_report_path out (html_of run_result) w).
Proof.
  destruct (generate_drift_report cur ref out w) as [o w'] eqn:Hrun.
  exec_all_in Hrun.
  all: subst_options.
  all: unfold drift_inputs, resolve_reference, resolve_current, simulate_current,
         drift_run, data_definition_of, bind_outcome in Hin.
  all: use_eqs_in Hin; try discriminate Hin.
  all: repeat match type of Hin with
              | context [match ?v with _ => _ end] => is_var v; destruct v
              end; try discriminate Hin.
  all: injection Hin as <- <- <-; injection Hrun as <- <-.
  all: norm_fs.
  all: first [fs_contradiction Hw | same_run].
Qed.

Lemma generate_drift_report_no_inputs cur ref out w x
    (Hin : drift_inputs cur ref = Raise x) :
  generate_drift_report cur ref out w =
  (Raise x, World (dirs w) (files w) (clock w) (log w ++ [Enter "generate_drift_report"])).
Proof.
  destruct (generate_drift_report cur ref out w) as [o w'] eqn:Hrun.
  exec_all_in Hrun.
  all: subst_options.
  all: unfold drift_inputs, resolve_reference, resolve_current, simulate_current,
         drift_run, data_definition_of, bind_outcome in Hin.
  all: use_eqs_in Hin; try discriminate Hin.
  all: repeat match type of Hin with
              | context [match ?v with _ => _ end] => is_var v; destruct v
              end; try discriminate Hin.
  all: injection Hin as <-; injection Hrun as <- <-; reflexivity.
Qed.

Ltac not_listed Hin :=
  repeat (apply elem_of_cons in Hin as [Hin|Hin]; [discriminate Hin|]);
  try (by apply elem_of_nil in Hin).

Ltac fs_possible Hw :=
  exfalso;
  repeat match goal with Hb : negb _ = true |- _ => apply negb_true_iff in Hb end;
  repeat match goal with Hb : negb _ = false |- _ => apply negb_false_iff in Hb end;
  repeat match goal with
         | Hb : bool_decide (_ ∈ _ ∪ _) = false |- _ =>
             apply bool_decide_eq_false in Hb;
             apply not_elem_of_union in Hb as [_ Hb];
             apply (bool_decide_eq_false _) in Hb
         end;
  repeat match goal with
         | Hb : ?b = true |- _ =>
             tryif constr_eq Hb Hw then fail else
             lazymatch type of Hw with context [b] => rewrite Hb in Hw end
         | Hb : ?b = false |- _ =>
             tryif constr_eq Hb Hw then fail else
             lazymatch type of Hw with context [b] => rewrite Hb in Hw end
         end;
  discriminate Hw.

Lemma generate_drift_report_no_write cur ref out w r c run_result
    (Hin : drift_inputs cur ref = Ok (r, c, run_result))
    (Hw : can_write w drift_report_path out = false) :
  let res := generate_drift_report cur ref out w in
  is_ok res.1 = false /\
  files res.2 = files w /\
  (forall line, Print line ∉ added w res.2).
Proof.
  destruct (generate_drift_report cur ref out w) as [o w'] eqn:Hrun.
  exec_all_in Hrun.
  all: subst_options.
  all: unfold drift_inputs, resolve_reference, resolve_current, simulate_current,
         drift_run, data_definition_of, bind_outcome in Hin.
  all: use_eqs_in Hin; try discriminate Hin.
  all: repeat match type of Hin with
              | context [match ?v with _ => _ end] => is_var v; destruct v
              end; try discriminate Hin.
  all: injection Hin as <- <- <-; injection Hrun as <- <-.
  all: norm_fs.
  all: first
    [ fs_possible Hw
    | cbn [fst snd dirs files clock log is_ok];
      split; [reflexivity|]; split; [reflexivity|];
      intros line Hline;
      erewrite added_events in Hline
        by (cbn [log]; rewrite <- ?app_assoc; reflexivity);
      not_listed Hline ].
Qed.

Ltac invert_summary_inputs Hin :=
  unfold summary_inputs, resolve_reference, summary_run, data_definition_of,
    bind_outcome in Hin;
  use_eqs_in Hin; try discriminate Hin;
  repeat match type of Hin with
         | context [match ?v with _ => _ end] => is_var v; destruct v
         end; try discriminate Hin.

Lemma generate_data_summary_report_run data out w d run_result
    (Hin : summary_inputs data = Ok (d, run_result))
    (Hw : can_write w data_summary_report_path out = true) :
  generate_data_summary_report data out w =
  (Ok [("timestamp", PStr (isoformat_at (clock w)));
       ("samples", PInt (len d));
       ("report_path", PStr (path_str (default data_summary_report_path out)))],
   report_written "generate_data_summary_report" "Data summary report saved to: "
     data_summary_report_path out (html_of run_result) w).
Proof.
  destruct (generate_data_summary_report data out w) as [o w'] eqn:Hrun.
  exec_all_in Hrun.
  all: subst_options.
  all: invert_summary_inputs Hin.
  all: injection Hin as <- <-; injection Hrun as <- <-.
  all: norm_fs.
  all: first [fs_contradiction Hw | same_run].
Qed.

Lemma generate_data_summary_report_no_inputs data out w x
    (Hin : summary_inputs data = Raise x) :
  generate_data_summary_report data out w =
  (Raise x, World (dirs w) (files w) (clock w)
                  (log w ++ [Enter "generate_data_summary_report"])).
Proof.
  destruct (generate_data_summary_report data out w) as [o w'] eqn:Hrun.
  exec_all_in Hrun.
  all: subst_options.
  all: invert_summary_inputs Hin.
  all: injection Hin as <-; injection Hrun as <- <-; reflexivity.
Qed.

(** The extraction loop gets through a list of metrics exactly when each
    of them is [metric_ok]. *)
Lemma extract_drift_is_ok metrics : forall summary,
  is_ok (extract_drift metrics summary) = forallb metric_ok metrics.
Proof.
  induction metrics as [|metric rest IH]; intros s; [reflexivity|].
  cbn [extract_drift forallb].
  destruct metric as [| | | | |l|m]; try reflexivity.
  cbn [py_get bind_outcome metric_ok drift_result_of].
  set (result := dict_get "result" (PDict []) m).
  unfold orb.
  destruct (if contains "DatasetDrift" (py_str (dict_get "metric" (PStr "") m))
            then true else contains "dataset_drift" (py_str result)) eqn:Hc.
  - destruct result as [| | | | |l|res]; try reflexivity.
    cbn [py_get bind_outcome andb]. apply IH.
  - cbn [andb]. apply IH.
Qed.

Lemma extract_drift_raises metrics : forall summary x,
  extract_drift metrics summary = Raise x ->
  x = AttributeError "object has no attribute 'get'".
Proof.
  induction metrics as [|metric rest IH]; intros s x Hx; [discriminate Hx|].
  cbn [extract_drift] in Hx.
  destruct metric as [| | | | |l|m]; try (by injection Hx as <-).
  cbn [py_get bind_outcome] in Hx.
  destruct (if contains "DatasetDrift" _ then true else _).
  - destruct (dict_get "result" (PDict []) m) as [| | | | |l|res];
      try (by injection Hx as <-).
    cbn [py_get bind_outcome] in Hx. by apply IH in Hx.
  - by apply IH in Hx.
Qed.


Lemma setitem_keys (k : string) (v : pyval) (d : dict) :
  map fst (setitem k v d)
  = if bool_decide (k ∈ map fst d) then map fst d else map fst d ++ [k].
Proof.
  induction d as [|[k' v'] d IH]; cbn [setitem map fst].
  - rewrite bool_decide_eq_false_2; [done|]. apply not_elem_of_nil.
  - destruct (String.eqb k k') eqn:E.
    + apply String.eqb_eq in E as ->.
      rewrite bool_decide_eq_true_2; [done|]. apply list_elem_of_here.
    + apply String.eqb_neq in E. cbn [map fst]. rewrite IH.
      destruct (decide (k ∈ map fst d)) as [Hin|Hin].
      * rewrite !bool_decide_eq_true_2; [done|by apply list_elem_of_further|done].
      * rewrite !bool_decide_eq_false_2; [done| |done].
        by intros [?|?]%elem_of_cons.
Qed.

Lemma extract_drift_keys metrics : forall summary summary',
  extract_drift metrics summary = Ok summary' ->
  map fst summary = base_keys \/ map fst summary = base_keys ++ drift_keys ->
  map fst summary'
  = match last_drift_result metrics with
    | Some _ => base_keys ++ drift_keys
    | None => map fst summary
    end.
Proof.
  induction metrics as [|metric rest IH]; intros s s' Hx Hk.
  - by injection Hx as <-.
  - rewrite last_drift_result_cons.
    cbn [extract_drift] in Hx.
    destruct metric as [| | | | |l|m]; try discriminate Hx.
    cbn [py_get bind_outcome drift_result_of] in Hx |- *.
    set (result := dict_get "result" (PDict []) m) in *.
    unfold orb.
    destruct (if contains "DatasetDrift" (py_str (dict_get "metric" (PStr "") m))
              then true else contains "dataset_drift" (py_str result)) eqn:Hc.
    + destruct result as [| | | | |l|res]; try discriminate Hx.
      cbn [py_get bind_outcome] in Hx.
      assert (Hk1 : map fst
                (setitem "number_of_drifted_columns"
                   (dict_get "number_of_drifted_columns" (PInt 0) res)
                   (setitem "drift_share" (dict_get "drift_share" (PFloat float_0_0) res)
                      (setitem "dataset_drift"
                         (dict_get "dataset_drift" (PBool false) res) s)))
              = base_keys ++ drift_keys).
      { rewrite !setitem_keys. destruct Hk as [-> | ->]; reflexivity. }
      apply IH in Hx; [|by right]. rewrite Hx, Hk1.
      by destruct (last_drift_result rest).
    + apply IH in Hx; [|done]. rewrite Hx.
      by destruct (last_drift_result rest).
Qed.

Lemma existsb_agree {A} (f g : A -> bool) (l : list A) :
  (forall x, x ∈ l -> f x = g x) -> existsb f l = existsb g l.
Proof.
  induction l as [|x l IH]; intros Hfg; [done|]. cbn [existsb].
  rewrite (Hfg x) by apply list_elem_of_here.
  rewrite IH; [done|]. intros y Hy. by apply Hfg, list_elem_of_further.
Qed.

(** A page written under [reports/] is in the way of no later report. *)
Lemma can_write_next fn label (a b : string) page (w : world) :
  can_write w (reports_dir // [a]) None = true ->
  reports_dir // [b] ∉ dirs w ->
  can_write (report_written fn label (reports_dir // [a]) None page w)
            (reports_dir // [b]) None = true.
Proof.
  unfold can_write, report_written. cbn [dirs files default from_option id].
  intros [Hfree _]%andb_true_iff Hb. apply andb_true_iff. split.
  - rewrite <- Hfree. f_equal. apply existsb_agree. intros q Hq.
    unfold is_file. cbn [files]. rewrite lookup_insert_ne; [done|].
    intros <-. by apply child_not_prefix in Hq.
  - apply negb_true_iff, bool_decide_eq_false. by apply child_not_made.
Qed.

Lemma write_file_can_open (p : path) (c : content) (w : world) :
  can_open w p = true ->
  write_file p c w = (Ok tt, World (dirs w) (<[p := c]> (files w)) (clock w) (log w)).
Proof.
  unfold can_open, write_file. intros Hw. split_andb.
  repeat match goal with Hb : _ = _ |- _ => rewrite Hb end. reflexivity.
Qed.

Lemma can_open_in_reports (w : world) (x : string) :
  existsb (is_file w) (prefixes reports_dir) = false ->
  is_dir w reports_dir = true ->
  reports_dir // [x] ∉ dirs w ->
  can_open w (reports_dir // [x]) = true.
Proof.
  intros Hf Hd Hx. unfold can_open. rewrite parent_join, Hf, Hd.
  rewrite !bool_decide_eq_false_2; [reflexivity|exact Hx|apply child_not_root].
Qed.

Lemma union_twice (L D : gset path) : L ∪ (L ∪ D) = L ∪ D.
Proof. by rewrite (assoc_L (∪)), (idemp_L (∪)). Qed.

(** The orchestrator returns when its data is there, both reports are
    computed, the drift summary is extracted, and nothing is in the way
    under [reports/].  It then has made [reports/], written the drift
    page, the summary page and the JSON, in this order and nothing else;
    its three timestamps are three successive readings of the clock, the
    outer one first; and the JSON holds the returned mapping. *)
Theorem monitoring_report_runs cur ref w r c rd metrics drift rs
    (Hr : resolve_reference ref = Ok r)
    (Hc : resolve_current r cur = Ok c)
    (Hd : drift_run r c = Ok rd)
    (Hm : metric_results_of rd = Ok metrics)
    (Hx : extract_drift metrics
            (base_summary r c drift_report_path (isoformat_at (S (clock w)))) = Ok drift)
    (Hs : summary_run c = Ok rs)
    (Hw : can_write w drift_report_path None = true)
    (Hw2 : data_summary_report_path ∉ dirs w)
    (Hw3 : summary_path ∉ dirs w) :
  let results :=
    [("timestamp", PStr (isoformat_at (clock w)));
     ("data_drift", PDict drift);
     ("data_summary",
      PDict [("timestamp", PStr (isoformat_at (S (S (clock w)))));
             ("samples", PInt (len c));
             ("report_path", PStr (path_str data_summary_report_path))])] in
  exists w',
    generate_full_monitoring_report cur ref w = (Ok results, w') /\
    dirs w' = list_to_set (prefixes reports_dir) ∪ dirs w /\
    files w' = <[summary_path := Json (PDict results)]>
                 (<[data_summary_report_path := Html (html_of rs)]>
                    (<[drift_report_path := Html (html_of rd)]> (files w))) /\
    clock w' = S (S (S (clock w))) /\
    added w w' =
      [Enter "generate_full_monitoring_report";
       Print banner;
       Print "Generating Comprehensive Monitoring Reports";
       Print banner;
       Print (newline +:+ "1. Generating Data Drift Report...");
       Enter "generate_drift_report";
       Mkdir reports_dir;
       SaveHtml drift_report_path;
       Print ("Drift report saved to: " +:+ path_str drift_report_path);
       Print (newline +:+ "2. Generating Data Summary Report...");
       Enter "generate_data_summary_report";
       Mkdir reports_dir;
       SaveHtml data_summary_report_path;
       Print ("Data summary report saved to: " +:+ path_str data_summary_report_path);
       JsonDump summary_path;
       Print (newline +:+ banner);
       Print "Monitoring Complete!";
       Print ("Summary saved to: " +:+ path_str summary_path);
       Print banner].
Proof.
  intros results.
  rewrite (generate_full_monitoring_report_steps _ _ _ _ _ Hr Hc).
  assert (Hin : drift_inputs (Some c) (Some r) = Ok (r, c, rd)).
  { unfold drift_inputs, resolve_reference, resolve_current. cbn [bind_outcome].
    by rewrite Hd. }
  assert (Hcw : can_write (drift_step_world w) drift_report_path None = true)
    by exact Hw.
  rewrite (generate_drift_report_run _ _ _ _ _ _ _ Hin Hcw).
  cbn [default from_option id]. rewrite Hm. cbn [bind_outcome].
  change (clock (drift_step_world w)) with (S (clock w)). rewrite Hx.
  assert (Hin2 : summary_inputs (Some c) = Ok (c, rs)).
  { unfold summary_inputs, resolve_reference. cbn [bind_outcome]. by rewrite Hs. }
  set (w2 := report_written _ _ _ _ _ (drift_step_world w)).
  assert (Hcw2 : can_write (summary_step_world w2) data_summary_report_path None = true).
  { apply (can_write_next _ _ "drift_report.html" "data_summary_report.html" _
             (drift_step_world w)); [exact Hw|exact Hw2]. }
  rewrite (generate_data_summary_report_run _ _ _ _ _ Hin2 Hcw2).
  cbn zeta. cbn [default from_option id].
  set (w3 := report_written _ _ _ _ _ (summary_step_world w2)).
  assert (Hdir3 : dirs w3 = list_to_set (prefixes reports_dir) ∪ dirs w).
  { subst w3 w2. unfold report_written. cbn [dirs summary_step_world drift_step_world].
    apply union_twice. }
  assert (Hcw3 : can_write w3 summary_path None = true).
  { apply (can_write_next _ _ "data_summary_report.html" "monitoring_summary.json" _
             (summary_step_world w2)); [exact Hcw2|].
    subst w2. unfold report_written. cbn [dirs summary_step_world drift_step_world].
    apply child_not_made, Hw3. }
  unfold can_write in Hcw3. apply andb_true_iff in Hcw3 as [Hf3 Hd3].
  apply negb_true_iff in Hf3, Hd3. apply bool_decide_eq_false in Hd3.
  unfold json_dump, bind, emit. cbn beta iota.
  rewrite write_file_can_open.
  2: { apply can_open_in_reports; [exact Hf3| |exact Hd3].
       unfold is_dir. cbn [dirs]. rewrite Hdir3. apply bool_decide_eq_true. right.
       apply elem_of_union_l, elem_of_list_to_set, prefixes_self, reports_dir_not_root. }
  cbn [dirs files clock log].
  eexists. split; [reflexivity|].
  split; [exact Hdir3|]. split; [reflexivity|]. split; [reflexivity|].
  apply added_events.
  subst w3 w2.
  unfold report_written, epilogue_world, summary_step_world, drift_step_world.
  cbn [log default from_option id].
  rewrite <- !app_assoc. reflexivity.
Qed.


(** When the summary report cannot be computed after the drift step
    went through, the orchestrator raises that exception and undoes
    nothing: the drift page stays on disk, the summary step was entered,
    and neither the summary page nor the JSON is written. *)
Theorem summary_step_failure_keeps_drift_page cur ref w r c rd metrics drift x
    (Hr : resolve_reference ref = Ok r)
    (Hc : resolve_current r cur = Ok c)
    (Hd : drift_run r c = Ok rd)
    (Hm : metric_results_of rd = Ok metrics)
    (Hx : extract_drift metrics
            (base_summary r c drift_report_path (isoformat_at (S (clock w)))) = Ok drift)
    (Hs : summary_run c = Raise x)
    (Hw : can_write w drift_report_path None = true) :
  exists w',
    generate_full_monitoring_report cur ref w = (Raise x, w') /\
    files w' = <[drift_report_path := Html (html_of rd)]> (files w) /\
    added w w' =
      [Enter "generate_full_monitoring_report";
       Print banner;
       Print "Generating Comprehensive Monitoring Reports";
       Print banner;
       Print (newline +:+ "1. Generating Data Drift Report...");
       Enter "generate_drift_report";
       Mkdir reports_dir;
       SaveHtml drift_report_path;
       Print ("Drift report saved to: " +:+ path_str drift_report_path);
       Print (newline +:+ "2. Generating Data Summary Report...");
       Enter "generate_data_summary_report"].
Proof.
  rewrite (generate_full_monitoring_report_steps _ _ _ _ _ Hr Hc).
  assert (Hin : drift_inputs (Some c) (Some r) = Ok (r, c, rd)).
  { unfold drift_inputs, resolve_reference, resolve_current. cbn [bind_outcome].
    by rewrite Hd. }
  assert (Hcw : can_write (drift_step_world w) drift_report_path None = true)
    by exact Hw.
  rewrite (generate_drift_report_run _ _ _ _ _ _ _ Hin Hcw).
  cbn [default from_option id]. rewrite Hm. cbn [bind_outcome].
  change (clock (drift_step_world w)) with (S (clock w)). rewrite Hx.
  assert (Hin2 : summary_inputs (Some c) = Raise x).
  { unfold summary_inputs, resolve_reference. cbn [bind_outcome]. by rewrite Hs. }
  rewrite (generate_data_summary_report_no_inputs _ _ _ _ Hin2).
  eexists. split; [reflexivity|]. split; [reflexivity|].
  apply added_events.
  unfold report_written, summary_step_world, drift_step_world.
  cbn [log default from_option id].
  rewrite <- !app_assoc. reflexivity.
Qed.

(** The loop over the configured numeric columns, whatever the list
    (names absent from the frame, names listed twice): when it gets
    through, the frame has the same number of rows and the same column
    names, and every column not in the list is as it was. *)
Theorem shift_numeric_keeps_frame cols : forall df df',
  shift_numeric cols df = Ok df' ->
  nrows df' = nrows df /\
  dom (columns df') = dom (columns df) /\
  (forall col, col ∉ cols -> columns df' !! col = columns df !! col).
Proof.
  induction cols as [|col0 rest IH]; intros df df' Hs; cbn [shift_numeric] in Hs.
  - by injection Hs as <-.
  - destruct (columns df !! col0) as [s0|] eqn:E0.
    + destruct (series_mul s0 float_1_05) as [s0'|x]; [|discriminate Hs].
      cbn [bind_outcome] in Hs.
      destruct (IH _ _ Hs) as (Hn & Hdom & Hkeep).
      unfold set_column in Hn, Hdom, Hkeep. cbn [nrows columns] in Hn, Hdom, Hkeep.
      split; [done|]. split.
      * rewrite Hdom. apply dom_insert_lookup_L. by rewrite E0.
      * intros col Hcol. apply not_elem_of_cons in Hcol as [Hne Hcol].
        rewrite (Hkeep col Hcol). by rewrite lookup_insert_ne.
    + destruct (IH _ _ Hs) as (Hn & Hdom & Hkeep).
      split; [done|]. split; [done|].
      intros col Hcol. apply not_elem_of_cons in Hcol as [_ Hcol]. by apply Hkeep.
Qed.

Lemma main_run w :
  main w =
  match generate_full_monitoring_report None None w with
  | (Raise x, w1) => (Raise x, w1)
  | (Ok summary, w1) =>
      let data_drift := dict_get "data_drift" (PDict []) summary in
      match data_drift with
      | PDict drift =>
          (Ok tt,
           World (dirs w1) (files w1) (clock w1)
             (log w1 ++
                [Print (newline +:+ "Monitoring Summary:");
                 Print ("  - Dataset Drift Detected: "
                        +:+ py_str (dict_get "dataset_drift" (PStr "N/A") drift));
                 Print ("  - Drift Share: "
                        +:+ py_str (dict_get "drift_share" (PStr "N/A") drift));
                 Print ("  - Drifted Columns: "
                        +:+ py_str (dict_get "number_of_drifted_columns"
                                      (PStr "N/A") drift))]))
      | _ =>
          (Raise (AttributeError "object has no attribute 'get'"),
           World (dirs w1) (files w1) (clock w1)
             (log w1 ++ [Print (newline +:+ "Monitoring Summary:")]))
      end
  end.
Proof.
  unfold main. unfold bind at 1.
  destruct (generate_full_monitoring_report None None w) as [[summary|x] w1];
    [|reflexivity].
  unfold bind, print, emit, lift. cbn beta iota zeta delta [dirs files clock log].
  cbn [py_get].
  destruct (dict_get "data_drift" (PDict []) summary); try reflexivity.
  cbn [py_get]. rewrite <- !app_assoc. reflexivity.
Qed.

(** ** What the report functions do, case by case *)

(** [generate_drift_report], once its data is there, the report is
    computed and the page can be written: it makes [reports/] when no
    output path was given, writes the page, prints where, reads the clock,
    and only then extracts the summary.  The outcome is that of the
    extraction; the page is on disk whether or not the extraction
    raises. *)
Theorem drift_report_runs cur ref out w r c run_result
    (Hin : drift_inputs cur ref = Ok (r, c, run_result))
    (Hw : can_write w drift_report_path out = true) :
  generate_drift_report cur ref out w =
  (let? metrics := metric_results_of run_result in
   extract_drift metrics
     (base_summary r c (default drift_report_path out) (isoformat_at (clock w))),
   report_written "generate_drift_report" "Drift report saved to: "
     drift_report_path out (html_of run_result) w).
Proof. exact (generate_drift_report_run _ _ _ _ _ _ _ Hin Hw). Qed.

(** [generate_drift_report], when the configuration or the data cannot
    be loaded, the current data cannot be synthesized or the report
    cannot be computed: the exception goes to the caller and the world is
    as it was, no directory made, no file written, no line printed. *)
Theorem drift_report_fails_early cur ref out w x
    (Hin : drift_inputs cur ref = Raise x) :
  generate_drift_report cur ref out w =
  (Raise x, World (dirs w) (files w) (clock w) (log w ++ [Enter "generate_drift_report"])).
Proof. exact (generate_drift_report_no_inputs _ _ _ _ _ Hin). Qed.

(** [generate_drift_report], when the report is computed but its page
    cannot be written (a file in the way of [reports/], the target a
    directory, or an explicit path that is empty, has a file for an
    ancestor or lacks its directory): the call raises, no file is written
    and nothing is printed. *)
Theorem drift_report_cannot_write cur ref out w r c run_result
    (Hin : drift_inputs cur ref = Ok (r, c, run_result))
    (Hw : can_write w drift_report_path out = false) :
  let res := generate_drift_report cur ref out w in
  is_ok res.1 = false /\
  files res.2 = files w /\
  (forall line, Print line ∉ added w res.2).
Proof. exact (generate_drift_report_no_write _ _ _ _ _ _ _ Hin Hw). Qed.


(** The extraction loop of [generate_drift_report] gets through a list
    of metrics exactly when each is a mapping whose result, if the loop
    reads the drift fields from it, is a mapping; otherwise it raises an
    [AttributeError], whatever the summary so far. *)
Theorem extraction_gets_through metrics summary :
  is_ok (extract_drift metrics summary) = forallb metric_ok metrics /\
  match extract_drift metrics summary with
  | Ok _ => True
  | Raise x => x = AttributeError "object has no attribute 'get'"
  end.
Proof.
  split; [apply extract_drift_is_ok|].
  destruct (extract_drift metrics summary) as [s|x] eqn:Hx; [done|].
  by apply extract_drift_raises in Hx.
Qed.

(** The keys of a drift summary, in order: the four base fields, then,
    if the report has a dataset-drift metric, the three drift fields, all
    three or none. *)
Theorem drift_summary_keys cur ref out w summary w'
    (Hrun : generate_drift_report cur ref out w = (Ok summary, w')) :
  exists r c run_result metrics,
    drift_inputs cur ref = Ok (r, c, run_result) /\
    metric_results_of run_result = Ok metrics /\
    map fst summary
    = base_keys ++ match last_drift_result metrics with
                   | Some _ => drift_keys
                   | None => []
                   end.
Proof.
  apply generate_drift_report_ok in Hrun
    as (r & c & run_result & metrics & Hr & Hc & Hd & Hm & Hx & _).
  exists r, c, run_result, metrics.
  split.
  { unfold drift_inputs. rewrite Hr. cbn [bind_outcome]. rewrite Hc.
    cbn [bind_outcome]. by rewrite Hd. }
  split; [done|].
  apply extract_drift_keys in Hx; [|by left]. rewrite Hx.
  destruct (last_drift_result metrics); [done|]. by rewrite app_nil_r.
Qed.

(** [generate_data_summary_report], once its data is there, the report
    is computed and the page can be written: it returns the three fields
    [timestamp], [samples] (the number of rows of the data) and
    [report_path] (the path of the page just written). *)
Theorem data_summary_report_runs data out w d run_result
    (Hin : summary_inputs data = Ok (d, run_result))
    (Hw : can_write w data_summary_report_path out = true) :
  generate_data_summary_report data out w =
  (Ok [("timestamp", PStr (isoformat_at (clock w)));
       ("samples", PInt (len d));
       ("report_path", PStr (path_str (default data_summary_report_path out)))],
   report_written "generate_data_summary_report" "Data summary report saved to: "
     data_summary_report_path out (html_of run_result) w).
Proof. exact (generate_data_summary_report_run _ _ _ _ _ Hin Hw). Qed.

(** [generate_data_summary_report] writes nothing unless it returns:
    when the data or the report is missing, the world is as it was; when
    the page cannot be written, no file is written and nothing printed. *)
Theorem data_summary_report_fails data out w :
  (forall x, summary_inputs data = Raise x ->
     generate_data_summary_report data out w =
     (Raise x, World (dirs w) (files w) (clock w)
                     (log w ++ [Enter "generate_data_summary_report"]))) /\
  (forall d run_result,
     summary_inputs data = Ok (d, run_result) ->
     can_write w data_summary_report_path out = false ->
     let res := generate_data_summary_report data out w in
     is_ok res.1 = false /\
     files res.2 = files w /\
     (forall line, Print line ∉ added w res.2)).
Proof.
  split.
  - intros x Hin. exact (generate_data_summary_report_no_inputs _ _ _ _ Hin).
  - intros d run_result Hin Hw.
    destruct (generate_data_summary_report data out w) as [o w'] eqn:Hrun.
    exec_all_in Hrun.
    all: subst_options.
    all: invert_summary_inputs Hin.
    all: injection Hin as <- <-; injection Hrun as <- <-.
    all: norm_fs.
    all: first
      [ fs_possible Hw
      | cbn [fst snd dirs files clock log is_ok];
        split; [reflexivity|]; split; [reflexivity|];
        intros line Hline;
        erewrite added_events in Hline
          by (cbn [log]; rewrite <- ?app_assoc; reflexivity);
        not_listed Hline ].
Qed.

(** The script of the module: an exception of the orchestrator is its
    outcome and nothing more is printed; when the orchestrator returns,
    the script does not raise and prints the heading and the three lines,
    each showing the field of [data_drift] or [N/A] when the field is
    absent. *)
Theorem script_prints_summary w :
  (forall x w1,
     generate_full_monitoring_report None None w = (Raise x, w1) ->
     main w = (Raise x, w1)) /\
  (forall results w1,
     generate_full_monitoring_report None None w = (Ok results, w1) ->
     exists drift,
       lookup_key "data_drift" results = Some (PDict drift) /\
       main w =
       (Ok tt,
        World (dirs w1) (files w1) (clock w1)
          (log w1 ++
             [Print (newline +:+ "Monitoring Summary:");
              Print ("  - Dataset Drift Detected: "
                     +:+ py_str (dict_get "dataset_drift" (PStr "N/A") drift));
              Print ("  - Drift Share: "
                     +:+ py_str (dict_get "drift_share" (PStr "N/A") drift));
              Print ("  - Drifted Columns: "
                     +:+ py_str (dict_get "number_of_drifted_columns"
                                   (PStr "N/A") drift))]))).
Proof.
  split.
  - intros x w1 Hrun. by rewrite main_run, Hrun.
  - intros results w1 Hrun. rewrite main_run, Hrun.
    apply generate_full_monitoring_report_ok in Hrun
      as (r & c & drift & w2 & summary & w3 & _ & _ & _ & _ & -> & _).
    exists drift. split; reflexivity.
Qed.

End Facts.

(** ** Runs of the small installation *)

Lemma drift_report_runs_example :
  (example_drift_report ["age"] (Ok example_report) None None None empty_world).1
  = Ok [("timestamp", PStr "2025-01-01T00:00:00");
        ("reference_samples", PInt 10);
        ("current_samples", PInt 3);
        ("report_path", PStr "project/reports/drift_report.html");
        ("dataset_drift", PBool true);
        ("drift_share", PFloat float_0_0);
        ("number_of_drifted_columns", PInt 1)].
Proof.
  unfold example_drift_report.
  rewrite (@drift_report_runs (example_project ["age"]) example_pandas
             (example_evidently (Ok example_report)) example_builtins
             None None None empty_world example_frame example_current example_report);
    vm_compute; reflexivity.
Defined.

Lemma drift_report_fails_early_example :
  example_drift_report ["htn"] (Ok example_report) None None None empty_world
  = (Raise (TypeError "can't multiply sequence by non-int of type 'float'"),
     World ∅ ∅ 0 [Enter "generate_drift_report"]).
Proof.
  exact (@drift_report_fails_early (example_project ["htn"]) example_pandas
           (example_evidently (Ok example_report)) example_builtins
           None None None empty_world
           (TypeError "can't multiply sequence by non-int of type 'float'")
           ltac:(vm_compute; reflexivity)).
Defined.

Lemma drift_report_cannot_write_example :
  let res := example_drift_report ["age"] (Ok example_report)
               None None (Some ["out"; "drift.html"]) empty_world in
  is_ok res.1 = false /\ files res.2 = ∅.
Proof.
  destruct (@drift_report_cannot_write (example_project ["age"]) example_pandas
              (example_evidently (Ok example_report)) example_builtins
              None None (Some ["out"; "drift.html"]) empty_world
              example_frame example_current example_report
              ltac:(vm_compute; reflexivity) ltac:(vm_compute; reflexivity))
    as (Hraise & Hfiles & _).
  split; [exact Hraise|exact Hfiles].
Defined.

Lemma drift_summary_keys_example :
  exists summary,
    (example_drift_report ["age"] (Ok example_report) None None None empty_world).1
      = Ok summary /\
    map fst summary
    = ["timestamp"; "reference_samples"; "current_samples"; "report_path";
       "dataset_drift"; "drift_share"; "number_of_drifted_columns"].
Proof.
  eexists.
  match goal with |- ?A /\ _ => assert (Hrun : A) by (vm_compute; reflexivity) end.
  split; [exact Hrun|].
  apply run_pair in Hrun. unfold example_drift_report in Hrun.
  destruct (drift_summary_keys _ _ _ _ _ _ Hrun)
    as (r & c & run_result & metrics & Hin & Hm & Hkeys).
  clear Hrun.
  vm_compute in Hin. injection Hin as <- <- <-.
  vm_compute in Hm. injection Hm as <-.
  exact Hkeys.
Defined.

Lemma data_summary_report_runs_example :
  (example_data_summary_report ["age"] (Ok example_report) None None empty_world).1
  = Ok [("timestamp", PStr "2025-01-01T00:00:00");
        ("samples", PInt 10);
        ("report_path", PStr "project/reports/data_summary_report.html")].
Proof.
  unfold example_data_summary_report.
  rewrite (@data_summary_report_runs (example_project ["age"]) example_pandas
             (example_evidently (Ok example_report)) example_builtins
             None None empty_world example_frame (PDict []));
    vm_compute; reflexivity.
Defined.

Lemma data_summary_report_fails_example :
  let res := example_data_summary_report ["age"] (Ok example_report)
               None (Some ["out"; "summary.html"]) empty_world in
  is_ok res.1 = false /\ files res.2 = ∅.
Proof.
  destruct (@data_summary_report_fails (example_project ["age"]) example_pandas
              (example_evidently (Ok example_report)) example_builtins
              None (Some ["out"; "summary.html"]) empty_world) as [_ Hwrite].
  destruct (Hwrite example_frame (PDict [])
              ltac:(vm_compute; reflexivity) ltac:(vm_compute; reflexivity))
    as (Hraise & Hfiles & _).
  split; [exact Hraise|exact Hfiles].
Defined.

Lemma monitoring_report_runs_example :
  let res := example_full_monitoring_report ["age"] (Ok example_report)
               None None empty_world in
  is_ok res.1 = true /\ clock res.2 = 3 /\
  files res.2 !! ["project"; "reports"; "data_summary_report.html"]
    = Some (Html "<html></html>").
Proof.
  intros res.
  edestruct (@monitoring_report_runs (example_project ["age"]) example_pandas
               (example_evidently (Ok example_report)) example_builtins
               None None empty_world)
    as (w' & Hrun & _ & Hfiles & Hclock & _);
    [vm_compute; reflexivity ..| | |].
  - apply not_elem_of_empty.
  - apply not_elem_of_empty.
  - unfold res, example_full_monitoring_report. rewrite Hrun.
    cbn [fst snd is_ok]. split; [reflexivity|]. split; [exact Hclock|].
    rewrite Hfiles. vm_compute. reflexivity.
Defined.

Lemma summary_step_failure_keeps_drift_page_example :
  let x := Exn "ValueError" "empty dataset" in
  let res := @generate_full_monitoring_report (example_project ["age"]) example_pandas
               (example_evidently_without_summary x) example_builtins
               None None empty_world in
  res.1 = Raise x /\
  files res.2 !! ["project"; "reports"; "drift_report.html"]
    = Some (Html "<html></html>") /\
  files res.2 !! ["project"; "reports"; "monitoring_summary.json"] = None.
Proof.
  intros x res.
  edestruct (@summary_step_failure_keeps_drift_page (example_project ["age"])
               example_pandas (example_evidently_without_summary x) example_builtins
               None None empty_world)
    as (w' & Hrun & Hfiles & _);
    [vm_compute; reflexivity ..|].
  unfold res. rewrite Hrun. cbn [fst snd]. split; [reflexivity|].
  rewrite Hfiles. split; vm_compute; reflexivity.
Defined.

Lemma shift_numeric_keeps_frame_example :
  exists df',
    @shift_numeric example_pandas ["age"; "missing"; "age"] (example_sample float_0_3 42 example_frame)
      = Ok df' /\
    nrows df' = 3 /\
    columns df' !! "htn" = Some (replicate 3 (PStr "no")).
Proof.
  eexists.
  match goal with |- ?A /\ _ => assert (Hs : A) by (vm_compute; reflexivity) end.
  split; [exact Hs|].
  destruct (@shift_numeric_keeps_frame example_pandas _ _ _ Hs) as (Hn & _ & Hkeep).
  split; [exact Hn|].
  rewrite Hkeep; [vm_compute; reflexivity|].
  intros Hin. apply list_elem_of_In in Hin. cbn in Hin.
  destruct Hin as [Hin|[Hin|[Hin|[]]]]; discriminate Hin.
Defined.

Lemma script_prints_summary_example :
  let full := example_full_monitoring_report ["age"] (Ok example_report_of_counts)
               None None empty_world in
  let script := @main (example_project ["age"]) example_pandas
                  (example_evidently (Ok example_report_of_counts))
                  example_builtins empty_world in
  is_ok full.1 = true /\
  script.1 = Ok tt /\
  added full.2 script.2
  = [Print (newline +:+ "Monitoring Summary:");
     Print "  - Dataset Drift Detected: N/A";
     Print "  - Drift Share: N/A";
     Print "  - Drifted Columns: N/A"].
Proof.
  intros full script.
  assert (Hok : exists results, full.1 = Ok results)
    by (eexists; vm_compute; reflexivity).
  destruct Hok as [results Hrun].
  split; [by rewrite Hrun|].
  apply run_pair in Hrun.
  destruct (proj2 (@script_prints_summary (example_project ["age"]) example_pandas
                     (example_evidently (Ok example_report_of_counts))
                     example_builtins empty_world) results full.2 Hrun)
    as (drift & Hdrift & Hmain).
  unfold script. rewrite Hmain. cbn [fst snd]. split; [reflexivity|].
  unfold added. cbn [log]. rewrite drop_app_length.
  assert (Hresults : full.1 = Ok results) by (by rewrite Hrun).
  vm_compute in Hresults. injection Hresults as <-.
  vm_compute in Hdrift. injection Hdrift as <-.
  vm_compute. reflexivity.
Defined.

End MonitoringRuns.
